(** * The task store of the Hackathon 2 task manager

    A shallow embedding of [models.py] and [store.py]: the [Task] record
    and its two enumerations, the [TaskStore] with its CRUD operations,
    the [overdue] query, and the JSON persistence ([_save_to_file],
    [_load_from_file]).

    Conventions of the embedding.
    - Python [int] is [Z]; [str] is [string]; [Optional[X]] is [option X].
    - [self._tasks] is a Python [dict]: insertion ordered, a store to an
      existing key keeps its position.  It is an association list here
      because the order is observable ([values()], the saved file).
    - [datetime] is a library type.  It is taken through the interface
      [DateTime]; [NaiveDateTime] below implements it for offset-naive
      values and is used for every concrete run.
    - [datetime.now()] and [date.today()] read the clock; the reading is
      an explicit argument of the operation that performs it.
    - The backing file is part of the state ([World]).  A file written
      by [json.dump] holds a document; [json.load] gives the document
      back when its nesting is within what the decoder follows
      ([JsonDecoder]) and raises [RecursionError] otherwise.  A text
      that is not JSON is [Garbled].
    - What is printed is not part of the state: the warning of the
      [except] clause is a text the console writes.
    - A [Task] is a mutable object held by reference in the dict;
      [update_task] mutates it in place, which is a store of the new
      record under the same key (the position does not move). *)

From Stdlib Require Import ZArith List String Ascii Bool Lia Eqdep_dec.
Import ListNotations.
Local Open Scope string_scope.
Local Open Scope list_scope.
Local Open Scope Z_scope.

(** ** Exceptions and the error monad *)

Inductive exn : Type :=
| JSONDecodeError
| KeyError
| ValueError
| AttributeError
| TypeError
| RecursionError.

Inductive result (A : Type) : Type :=
| Ok (a : A)
| Raise (e : exn).
Arguments Ok {A} a.
Arguments Raise {A} e.

Definition bind {A B : Type} (m : result A) (k : A -> result B) : result B :=
  match m with
  | Ok a => k a
  | Raise e => Raise e
  end.

Notation "x <- m ;; k" := (bind m (fun x => k))
  (at level 61, m at next level, right associativity).

(** ** models.py *)

Inductive Priority : Type := LOW | MEDIUM | HIGH.
Inductive Status : Type := PENDING | IN_PROGRESS | COMPLETED.

(** [Priority.X.value] *)
Definition Priority_value (p : Priority) : string :=
  match p with
  | LOW => "low"
  | MEDIUM => "medium"
  | HIGH => "high"
  end.

(** [Status.X.value] *)
Definition Status_value (s : Status) : string :=
  match s with
  | PENDING => "pending"
  | IN_PROGRESS => "in_progress"
  | COMPLETED => "completed"
  end.

Definition Status_eqb (a b : Status) : bool :=
  match a, b with
  | PENDING, PENDING | IN_PROGRESS, IN_PROGRESS | COMPLETED, COMPLETED => true
  | _, _ => false
  end.

(** ** The [datetime] library *)

(** A [date] is a year, a month and a day; [<] on dates compares them in
    that order. *)
Record date : Type := { dyear : Z; dmonth : Z; dday : Z }.

Definition date_ltb (a b : date) : bool :=
  (dyear a <? dyear b)
  || ((dyear a =? dyear b)
      && ((dmonth a <? dmonth b)
          || ((dmonth a =? dmonth b) && (dday a <? dday b)))).

(** What the store uses of [datetime]: [d.isoformat()],
    [datetime.fromisoformat(s)] ([None] stands for its [ValueError]) and
    [d.date()]. *)
Class DateTime : Type := {
  datetime : Type;
  isoformat : datetime -> string;
  fromisoformat : string -> option datetime;
  date_of : datetime -> date
}.

(** The documented contract of the library: [fromisoformat] inverts
    [isoformat], and an ISO string is never empty. *)
Record DateTimeLaws (DT : DateTime) : Prop := {
  fromisoformat_isoformat :
    forall d : datetime, fromisoformat (isoformat d) = Some d;
  isoformat_not_empty :
    forall d : datetime, isoformat d <> ""
}.

(** ** Python dicts with integer keys *)

Definition dict (V : Type) : Type := list (Z * V).

(** [d.get(k)] *)
Fixpoint dict_get {V : Type} (k : Z) (d : dict V) : option V :=
  match d with
  | [] => None
  | (k', v) :: r => if k =? k' then Some v else dict_get k r
  end.

(** [k in d] *)
Definition dict_contains {V : Type} (k : Z) (d : dict V) : bool :=
  match dict_get k d with
  | Some _ => true
  | None => false
  end.

(** [d[k] = v]: overwrite in place, or append a new entry. *)
Fixpoint dict_set {V : Type} (k : Z) (v : V) (d : dict V) : dict V :=
  match d with
  | [] => [(k, v)]
  | (k', v') :: r =>
      if k =? k' then (k', v) :: r else (k', v') :: dict_set k v r
  end.

(** [del d[k]] *)
Fixpoint dict_del {V : Type} (k : Z) (d : dict V) : dict V :=
  match d with
  | [] => []
  | (k', v') :: r => if k =? k' then r else (k', v') :: dict_del k r
  end.

(** [d.keys()], [d.values()], [len(d)] *)
Definition dict_keys {V : Type} (d : dict V) : list Z := map fst d.
Definition dict_values {V : Type} (d : dict V) : list V := map snd d.
Definition dict_len {V : Type} (d : dict V) : Z := Z.of_nat (List.length d).

(** ** JSON documents, as [json.load] returns them

    Numbers are the integers; an object is the sequence of its members,
    and a repeated name resolves to its last occurrence, as in
    [json.load]. *)

#[warnings="-register-all"]
Inductive json : Type :=
| JNull
| JBool (b : bool)
| JInt (z : Z)
| JStr (s : string)
| JArr (l : list json)
| JObj (m : list (string * json)).

Fixpoint obj_get (k : string) (m : list (string * json)) : option json :=
  match m with
  | [] => None
  | (k', v) :: r =>
      match obj_get k r with
      | Some x => Some x
      | None => if String.eqb k k' then Some v else None
      end
  end.

(** [x.get(k, default)]: only a dict has the method. *)
Definition py_get (x : json) (k : string) (default : json) : result json :=
  match x with
  | JObj m =>
      match obj_get k m with
      | Some v => Ok v
      | None => Ok default
      end
  | _ => Raise AttributeError
  end.

(** [x[k]] with a string [k]: only a dict can be subscripted by a
    string, and a missing key is a [KeyError]. *)
Definition py_item (x : json) (k : string) : result json :=
  match x with
  | JObj m =>
      match obj_get k m with
      | Some v => Ok v
      | None => Raise KeyError
      end
  | _ => Raise TypeError
  end.

(** [bool(x)] *)
Definition truthy (x : json) : bool :=
  match x with
  | JNull => false
  | JBool b => b
  | JInt z => negb (z =? 0)
  | JStr s => negb (String.eqb s "")
  | JArr l => match l with [] => false | _ => true end
  | JObj m => match m with [] => false | _ => true end
  end.

Fixpoint chars (s : string) : list json :=
  match s with
  | EmptyString => []
  | String c r => JStr (String c EmptyString) :: chars r
  end.

(** [for item in x]: a list yields its elements, a dict its keys, a
    string its characters; nothing else is iterable. *)
Definition py_iter (x : json) : result (list json) :=
  match x with
  | JArr l => Ok l
  | JObj m => Ok (map (fun kv => JStr (fst kv)) m)
  | JStr s => Ok (chars s)
  | _ => Raise TypeError
  end.

(** [Priority(v)]: the member whose value is [v], else [ValueError]. *)
Definition Priority_of (v : json) : result Priority :=
  match v with
  | JStr s =>
      if String.eqb s "low" then Ok LOW
      else if String.eqb s "medium" then Ok MEDIUM
      else if String.eqb s "high" then Ok HIGH
      else Raise ValueError
  | _ => Raise ValueError
  end.

(** [Status(v)] *)
Definition Status_of (v : json) : result Status :=
  match v with
  | JStr s =>
      if String.eqb s "pending" then Ok PENDING
      else if String.eqb s "in_progress" then Ok IN_PROGRESS
      else if String.eqb s "completed" then Ok COMPLETED
      else Raise ValueError
  | _ => Raise ValueError
  end.

(** Hashable values can be dict keys; lists and dicts cannot. *)
Definition hashable (x : json) : bool :=
  match x with
  | JArr _ | JObj _ => false
  | _ => true
  end.

(** How deep the arrays and objects of a document nest. *)
Fixpoint json_depth (j : json) : nat :=
  match j with
  | JArr l => S (list_max (map json_depth l))
  | JObj m => S (list_max (map (fun kv => json_depth (snd kv)) m))
  | _ => O
  end.

(** The decoder behind [json.load] recurses into arrays and objects and
    raises [RecursionError] for a text nested deeper than the
    interpreter lets it go.  [max_depth] is the deepest nesting it
    follows; it covers the four levels of the documents the store
    writes (document, task list, task, tag list). *)
Class JsonDecoder : Type := {
  max_depth : nat;
  max_depth_room : (4 <= max_depth)%nat
}.

(** The content of the backing file: no file, a text that is not JSON,
    or the text of a document.  [nesting] is how deep the brackets of
    the text nest before the place where it stops being JSON. *)
Inductive file : Type :=
| Absent
| Garbled (nesting : nat)
| Document (data : json).

(** ** The model, over any implementation of [datetime] *)

Section Store.

Context {DT : DateTime} {JD : JsonDecoder}.

(** The [Task] dataclass. *)
Record Task : Type := {
  id : Z;
  title : string;
  description : string;
  priority : Priority;
  status : Status;
  due_date : option datetime;
  created_at : datetime;
  updated_at : datetime;
  tags : list string
}.

(** The attributes of a [TaskStore] ([_storage_file] names the file,
    whose content is the [disk] of the [World]). *)
Record TaskStore : Type := {
  _tasks : dict Task;
  _next_id : Z
}.

Record World : Type := {
  store : TaskStore;
  disk : file
}.

(** *** Persistence: saving *)

(** One entry of the ["tasks"] list written by [_save_to_file]. *)
Definition task_record (task : Task) : json :=
  JObj [ ("id", JInt (id task));
         ("title", JStr (title task));
         ("description", JStr (description task));
         ("priority", JStr (Priority_value (priority task)));
         ("status", JStr (Status_value (status task)));
         ("due_date", match due_date task with
                      | Some d => JStr (isoformat d)
                      | None => JNull
                      end);
         ("created_at", JStr (isoformat (created_at task)));
         ("updated_at", JStr (isoformat (updated_at task)));
         ("tags", JArr (map JStr (tags task))) ].

(** The [data] dictionary built by [_save_to_file]. *)
Definition save_data (self : TaskStore) : json :=
  JObj [ ("next_id", JInt (_next_id self));
         ("tasks", JArr (map task_record (dict_values (_tasks self)))) ].

(** [_save_to_file]: the file is rewritten with the whole collection. *)
Definition _save_to_file (self : TaskStore) : World :=
  {| store := self; disk := Document (save_data self) |}.

(** *** CREATE *)

(** [add_task].  [tags = None] is the default argument; [tags or []]
    also maps an empty list to a new empty list.  [now_created] and
    [now_updated] are the two clock readings of the two
    [default_factory] calls of the dataclass. *)
Definition add_task (title : string) (description : string)
    (priority : Priority) (tags : option (list string))
    (due_date : option datetime) (now_created now_updated : datetime)
    (w : World) : Task * World :=
  let self := store w in
  let task := {| id := _next_id self;
                 title := title;
                 description := description;
                 priority := priority;
                 status := PENDING;
                 due_date := due_date;
                 created_at := now_created;
                 updated_at := now_updated;
                 tags := match tags with Some l => l | None => [] end |} in
  let self' := {| _tasks := dict_set (_next_id self) task (_tasks self);
                  _next_id := _next_id self + 1 |} in
  (task, _save_to_file self').

(** *** READ *)

Definition get_task (task_id : Z) (self : TaskStore) : option Task :=
  dict_get task_id (_tasks self).

Definition get_all_tasks (self : TaskStore) : list Task :=
  dict_values (_tasks self).

(** The condition of the comprehension in [get_overdue_tasks]; a
    [datetime] object is always true, so [if task.due_date] tests for
    [None]. *)
Definition is_overdue (today : date) (task : Task) : bool :=
  match due_date task with
  | None => false
  | Some d => date_ltb (date_of d) today
              && negb (Status_eqb (status task) COMPLETED)
  end.

Definition get_overdue_tasks (today : date) (self : TaskStore) : list Task :=
  filter (is_overdue today) (dict_values (_tasks self)).

(** *** UPDATE *)

(** The field assignments of [update_task], in the order of the source. *)
Definition apply_update (title : option string) (description : option string)
    (priority : option Priority) (status : option Status)
    (due_date : option datetime) (clear_due_date : bool)
    (tags : option (list string)) (now : datetime) (task : Task) : Task :=
  match task with
  | Build_Task id0 title0 description0 priority0 status0 due_date0
      created_at0 _ tags0 =>
      {| id := id0;
         title := match title with Some x => x | None => title0 end;
         description := match description with
                        | Some x => x
                        | None => description0
                        end;
         priority := match priority with Some x => x | None => priority0 end;
         status := match status with Some x => x | None => status0 end;
         due_date := if clear_due_date then None
                     else match due_date with
                          | Some x => Some x
                          | None => due_date0
                          end;
         created_at := created_at0;
         updated_at := now;
         tags := match tags with Some x => x | None => tags0 end |}
  end.

(** [update_task].  A [Task] object is always true, so [if not task]
    tests for [None]. *)
Definition update_task (task_id : Z) (title : option string)
    (description : option string) (priority : option Priority)
    (status : option Status) (due_date : option datetime)
    (clear_due_date : bool) (tags : option (list string)) (now : datetime)
    (w : World) : option Task * World :=
  match dict_get task_id (_tasks (store w)) with
  | None => (None, w)
  | Some task =>
      let task' := apply_update title description priority status due_date
                     clear_due_date tags now task in
      let self' := {| _tasks := dict_set task_id task' (_tasks (store w));
                      _next_id := _next_id (store w) |} in
      (Some task', _save_to_file self')
  end.

Definition mark_completed (task_id : Z) (now : datetime) (w : World)
    : option Task * World :=
  update_task task_id None None None (Some COMPLETED) None false None now w.

(** *** DELETE *)

Definition delete_task (task_id : Z) (w : World) : bool * World :=
  if dict_contains task_id (_tasks (store w)) then
    (true, _save_to_file {| _tasks := dict_del task_id (_tasks (store w));
                            _next_id := _next_id (store w) |})
  else (false, w).

Definition clear_all (w : World) : Z * World :=
  let count := dict_len (_tasks (store w)) in
  (count, _save_to_file {| _tasks := []; _next_id := _next_id (store w) |}).

(** [count] *)
Definition count (self : TaskStore) : Z := dict_len (_tasks self).

(** *** Persistence: loading *)

(** What [Task(...)] builds in the loop of [_load_from_file].  The
    dataclass does not check its annotations: [id], [title],
    [description] and [tags] hold whatever the document holds. *)
Record RawTask : Type := {
  raw_id : json;
  raw_title : json;
  raw_description : json;
  raw_priority : Priority;
  raw_status : Status;
  raw_due_date : option datetime;
  raw_created_at : datetime;
  raw_updated_at : datetime;
  raw_tags : json
}.

(** [datetime.fromisoformat(v)]: [TypeError] unless [v] is a string,
    [ValueError] when the string does not parse. *)
Definition parse_datetime (v : json) : result datetime :=
  match v with
  | JStr s =>
      match fromisoformat s with
      | Some d => Ok d
      | None => Raise ValueError
      end
  | _ => Raise TypeError
  end.

(** The body of the loop up to the construction of the task; the
    keyword arguments are evaluated from left to right. *)
Definition load_task (task_data : json) : result RawTask :=
  due_date_str <- py_get task_data "due_date" JNull ;;
  id_v <- py_item task_data "id" ;;
  title_v <- py_item task_data "title" ;;
  description_v <- py_get task_data "description" (JStr "") ;;
  priority_v <- py_item task_data "priority" ;;
  priority_m <- Priority_of priority_v ;;
  status_v <- py_item task_data "status" ;;
  status_m <- Status_of status_v ;;
  due <- (if truthy due_date_str
          then (d <- parse_datetime due_date_str ;; Ok (Some d))
          else Ok None) ;;
  created_v <- py_item task_data "created_at" ;;
  created <- parse_datetime created_v ;;
  updated_v <- py_item task_data "updated_at" ;;
  updated <- parse_datetime updated_v ;;
  tags_v <- py_get task_data "tags" (JArr []) ;;
  Ok {| raw_id := id_v;
        raw_title := title_v;
        raw_description := description_v;
        raw_priority := priority_m;
        raw_status := status_m;
        raw_due_date := due;
        raw_created_at := created;
        raw_updated_at := updated;
        raw_tags := tags_v |}.

(** The typed reading of a loaded value: [None] when the value is not
    of the type the [Task] annotations declare.  Such a store is
    outside this model. *)
Definition as_int (v : json) : option Z :=
  match v with JInt z => Some z | _ => None end.

Definition as_str (v : json) : option string :=
  match v with JStr s => Some s | _ => None end.

Fixpoint as_str_list (l : list json) : option (list string) :=
  match l with
  | [] => Some []
  | v :: r =>
      match as_str v, as_str_list r with
      | Some s, Some ss => Some (s :: ss)
      | _, _ => None
      end
  end.

Definition typed_task (r : RawTask) : option Task :=
  match as_int (raw_id r), as_str (raw_title r), as_str (raw_description r),
        raw_tags r with
  | Some i, Some t, Some d, JArr l =>
      match as_str_list l with
      | Some tg =>
          Some {| id := i; title := t; description := d;
                  priority := raw_priority r; status := raw_status r;
                  due_date := raw_due_date r;
                  created_at := raw_created_at r;
                  updated_at := raw_updated_at r;
                  tags := tg |}
      | None => None
      end
  | _, _, _, _ => None
  end.

(** The loop [for task_data in ...: ... self._tasks[task.id] = task].
    The collection is [None] once a task outside the annotations has
    been stored; exceptions are raised all the same. *)
Fixpoint load_tasks (items : list json) (tasks : option (dict Task))
    : result (option (dict Task)) :=
  match items with
  | [] => Ok tasks
  | task_data :: rest =>
      raw <- load_task task_data ;;
      if hashable (raw_id raw) then
        load_tasks rest
          match tasks, typed_task raw with
          | Some d, Some task => Some (dict_set (id task) task d)
          | _, _ => None
          end
      else Raise TypeError
  end.

(** The body of the [try] block, after [json.load]. *)
Definition load_data (data : json) (self : TaskStore)
    : result (option TaskStore) :=
  next_id_v <- py_get data "next_id" (JInt 1) ;;
  tasks_v <- py_get data "tasks" (JArr []) ;;
  items <- py_iter tasks_v ;;
  tasks <- load_tasks items (Some (_tasks self)) ;;
  Ok match tasks, as_int next_id_v with
     | Some d, Some n => Some {| _tasks := d; _next_id := n |}
     | _, _ => None
     end.

(** [except (json.JSONDecodeError, KeyError, ValueError)] *)
Definition caught (e : exn) : bool :=
  match e with
  | JSONDecodeError | KeyError | ValueError => true
  | AttributeError | TypeError | RecursionError => false
  end.

(** What [json.load] raises on a text that is not JSON: it has to get
    to the place of the error first. *)
Definition decode_error (nesting : nat) : exn :=
  if (nesting <=? max_depth)%nat then JSONDecodeError else RecursionError.

(** [json.load] on the text of a document. *)
Definition json_load (data : json) : result json :=
  if (json_depth data <=? max_depth)%nat then Ok data
  else Raise RecursionError.

(** How the construction of a store ends: with a store, with an
    exception that leaves [__init__], or with a store whose values are
    outside the annotated types. *)
Inductive outcome : Type :=
| Constructed (self : TaskStore)
| Uncaught (e : exn)
| Untyped.

(** The state the [except] clause resets to, which is also the state
    [__init__] starts from. *)
Definition fresh : TaskStore := {| _tasks := []; _next_id := 1 |}.

(** The [try] statement around a body: the [except] clause starts
    fresh, any other exception leaves the method. *)
Definition try_except (body : result (option TaskStore)) : outcome :=
  match body with
  | Ok (Some self') => Constructed self'
  | Ok None => Untyped
  | Raise e => if caught e then Constructed fresh else Uncaught e
  end.

Definition _load_from_file (f : file) (self : TaskStore) : outcome :=
  match f with
  | Absent => Constructed self
  | Garbled nesting => try_except (Raise (decode_error nesting))
  | Document text =>
      try_except (data <- json_load text ;; load_data data self)
  end.

Definition __init__ (f : file) : outcome := _load_from_file f fresh.

(** *** Sequences of calls *)

(** One call of a public mutating operation, with its arguments and the
    clock readings it makes. *)
Inductive call : Type :=
| AddTask (title description : string) (priority : Priority)
    (tags : option (list string)) (due_date : option datetime)
    (now_created now_updated : datetime)
| UpdateTask (task_id : Z) (title description : option string)
    (priority : option Priority) (status : option Status)
    (due_date : option datetime) (clear_due_date : bool)
    (tags : option (list string)) (now : datetime)
| MarkCompleted (task_id : Z) (now : datetime)
| DeleteTask (task_id : Z)
| ClearAll.

Definition step (c : call) (w : World) : World :=
  match c with
  | AddTask t d p tg du n1 n2 => snd (add_task t d p tg du n1 n2 w)
  | UpdateTask i t d p s du cl tg n =>
      snd (update_task i t d p s du cl tg n w)
  | MarkCompleted i n => snd (mark_completed i n w)
  | DeleteTask i => snd (delete_task i w)
  | ClearAll => snd (clear_all w)
  end.

(** The id of the task a call creates, if it creates one. *)
Definition assigned (c : call) (w : World) : list Z :=
  match c with
  | AddTask t d p tg du n1 n2 => [id (fst (add_task t d p tg du n1 n2 w))]
  | _ => []
  end.

Fixpoint run (cs : list call) (w : World) : World :=
  match cs with
  | [] => w
  | c :: r => run r (step c w)
  end.

(** The ids assigned by the creates of a sequence, in call order. *)
Fixpoint created_ids (cs : list call) (w : World) : list Z :=
  match cs with
  | [] => []
  | c :: r => assigned c w ++ created_ids r (step c w)
  end.

Definition is_create (c : call) : bool :=
  match c with AddTask _ _ _ _ _ _ _ => true | _ => false end.

Definition creates (cs : list call) : nat := List.length (filter is_create cs).

(** [n, n+1, ..., n+k-1] *)
Fixpoint count_from (n : Z) (k : nat) : list Z :=
  match k with
  | O => []
  | S k' => n :: count_from (n + 1) k'
  end.

(** The worlds reached by constructing a store on some file and then
    calling the public operations. *)
Inductive reachable : World -> Prop :=
| reachable_init (f : file) (self : TaskStore) :
    __init__ f = Constructed self ->
    reachable {| store := self; disk := f |}
| reachable_step (c : call) (w : World) :
    reachable w -> reachable (step c w).

(** Every id in use is below the counter. *)
Definition ids_below_counter (self : TaskStore) : Prop :=
  forall k, In k (dict_keys (_tasks self)) -> k < _next_id self.

(** Every task is stored under its own id. *)
Definition keyed_by_id (d : dict Task) : Prop :=
  Forall (fun kv => fst kv = id (snd kv)) d.

(** The collections the store builds: keys are distinct and every task
    sits under its own id. *)
Definition well_keyed (d : dict Task) : Prop :=
  NoDup (dict_keys d) /\ keyed_by_id d.

(** The loop of [_load_from_file], seen on the typed collection. *)
Definition store_all (tasks : list Task) (acc : dict Task) : dict Task :=
  fold_left (fun d task => dict_set (id task) task d) tasks acc.

(** *** Defects of a persisted record *)











End Store.

(** ** Offset-naive datetimes

    An implementation of the [DateTime] interface: the fields of a
    [datetime] without [tzinfo], in the ranges the constructor enforces.
    [isoformat] is [YYYY-MM-DDTHH:MM:SS], followed by [.ffffff] when the
    microsecond is not zero; [fromisoformat] reads that format and its
    shorter forms ([YYYY-MM-DD], and a time cut after the hour, the
    minute, the second or the millisecond). *)

Module Naive.

Record fields : Type := {
  year : Z; month : Z; day : Z;
  hour : Z; minute : Z; second : Z; microsecond : Z
}.

Definition is_leap (y : Z) : bool :=
  (y mod 4 =? 0) && (negb (y mod 100 =? 0) || (y mod 400 =? 0)).

Definition days_in_month (y m : Z) : Z :=
  if m =? 2 then (if is_leap y then 29 else 28)
  else if (m =? 4) || (m =? 6) || (m =? 9) || (m =? 11) then 30
  else 31.

(** The checks of [datetime(year, month, day, hour, ...)]. *)
Definition valid (f : fields) : bool :=
  (1 <=? year f) && (year f <=? 9999)
  && (1 <=? month f) && (month f <=? 12)
  && (1 <=? day f) && (day f <=? days_in_month (year f) (month f))
  && (0 <=? hour f) && (hour f <? 24)
  && (0 <=? minute f) && (minute f <? 60)
  && (0 <=? second f) && (second f <? 60)
  && (0 <=? microsecond f) && (microsecond f <? 1000000).

Definition t : Type := { f : fields | valid f = true }.

(** The constructor: the object exists only when the checks pass. *)
Definition make (f : fields) : option t :=
  match valid f as b return valid f = b -> option t with
  | true => fun H => Some (exist _ f H)
  | false => fun _ => None
  end eq_refl.

Definition digit (z : Z) : ascii :=
  match z with
  | 0 => "0" | 1 => "1" | 2 => "2" | 3 => "3" | 4 => "4"
  | 5 => "5" | 6 => "6" | 7 => "7" | 8 => "8" | _ => "9"
  end%char.

Definition digit_val (c : ascii) : option Z :=
  let n := Z.of_N (N_of_ascii c) in
  if (48 <=? n) && (n <=? 57) then Some (n - 48) else None.

(** [n] written with exactly 2, 4 or 6 decimal digits. *)
Definition pad2 (n : Z) (rest : string) : string :=
  String (digit (n / 10)) (String (digit (n mod 10)) rest).

Definition pad4 (n : Z) (rest : string) : string :=
  pad2 (n / 100) (pad2 (n mod 100) rest).

Definition pad6 (n : Z) (rest : string) : string :=
  pad2 (n / 10000) (pad4 (n mod 10000) rest).

Definition fraction_isoformat (f : fields) : string :=
  if microsecond f =? 0 then "" else String "." (pad6 (microsecond f) "").

Definition time_isoformat (f : fields) : string :=
  pad2 (hour f) (String ":" (pad2 (minute f) (String ":"
    (pad2 (second f) (fraction_isoformat f))))).

Definition fields_isoformat (f : fields) : string :=
  pad4 (year f) (String "-" (pad2 (month f) (String "-"
    (pad2 (day f) (String "T" (time_isoformat f)))))).

(** Reading [k] digits from the front of a string. *)
Fixpoint number (k : nat) (acc : Z) (s : string) : option (Z * string) :=
  match k with
  | O => Some (acc, s)
  | S k' =>
      match s with
      | EmptyString => None
      | String c r =>
          match digit_val c with
          | Some v => number k' (acc * 10 + v) r
          | None => None
          end
      end
  end.

Definition expect (c : ascii) (s : string) : option string :=
  match s with
  | String c' r => if Ascii.eqb c c' then Some r else None
  | EmptyString => None
  end.

(** The fraction: absent, three digits or six digits. *)
Definition parse_fraction (s : string) : option Z :=
  match s with
  | EmptyString => Some 0
  | String c r =>
      if Ascii.eqb c "." then
        match number 3 0 r with
        | Some (ms, EmptyString) => Some (ms * 1000)
        | Some (ms, r') =>
            match number 3 ms r' with
            | Some (us, EmptyString) => Some us
            | _ => None
            end
        | None => None
        end
      else None
  end.

(** The time after the separator: [HH[:MM[:SS[.fff[fff]]]]]. *)
Definition parse_time (s : string) : option (Z * Z * Z * Z) :=
  match number 2 0 s with
  | Some (h, EmptyString) => Some (h, 0, 0, 0)
  | Some (h, s1) =>
      match expect ":" s1 with
      | Some s2 =>
          match number 2 0 s2 with
          | Some (mi, EmptyString) => Some (h, mi, 0, 0)
          | Some (mi, s3) =>
              match expect ":" s3 with
              | Some s4 =>
                  match number 2 0 s4 with
                  | Some (sec, s5) =>
                      match parse_fraction s5 with
                      | Some us => Some (h, mi, sec, us)
                      | None => None
                      end
                  | None => None
                  end
              | None => None
              end
          | None => None
          end
      | None => None
      end
  | None => None
  end.

Definition parse_fields (s : string) : option fields :=
  match number 4 0 s with
  | Some (y, s1) =>
      match expect "-" s1 with
      | Some s2 =>
          match number 2 0 s2 with
          | Some (m, s3) =>
              match expect "-" s3 with
              | Some s4 =>
                  match number 2 0 s4 with
                  | Some (d, EmptyString) =>
                      Some {| year := y; month := m; day := d; hour := 0;
                              minute := 0; second := 0; microsecond := 0 |}
                  | Some (d, String _ s5) =>
                      match parse_time s5 with
                      | Some (h, mi, sec, us) =>
                          Some {| year := y; month := m; day := d;
                                  hour := h; minute := mi; second := sec;
                                  microsecond := us |}
                      | None => None
                      end
                  | None => None
                  end
              | None => None
              end
          | None => None
          end
      | None => None
      end
  | None => None
  end.

Definition t_isoformat (d : t) : string := fields_isoformat (proj1_sig d).

Definition t_fromisoformat (s : string) : option t :=
  match parse_fields s with
  | Some f => make f
  | None => None
  end.

Definition t_date (d : t) : date :=
  {| dyear := year (proj1_sig d);
     dmonth := month (proj1_sig d);
     dday := day (proj1_sig d) |}.

End Naive.

Definition NaiveDateTime : DateTime :=
  {| datetime := Naive.t;
     isoformat := Naive.t_isoformat;
     fromisoformat := Naive.t_fromisoformat;
     date_of := Naive.t_date |}.

(** A decoder that follows a thousand levels, the interpreter's default
    recursion limit. *)
Definition DefaultDecoder : JsonDecoder :=
  {| max_depth := 1000;
     max_depth_room := proj1 (Nat.leb_le 4 1000) eq_refl |}.

(** ** Concrete values for the runs below *)

Module Sample.

#[local] Existing Instance NaiveDateTime.

Definition at_date (y m d : Z) : Naive.fields :=
  {| Naive.year := y; Naive.month := m; Naive.day := d; Naive.hour := 9;
     Naive.minute := 30; Naive.second := 0; Naive.microsecond := 0 |}.

Definition yesterday : Naive.t := exist _ (at_date 2024 3 14) eq_refl.
Definition this_morning : Naive.t := exist _ (at_date 2024 3 15) eq_refl.
Definition tomorrow : Naive.t := exist _ (at_date 2024 3 16) eq_refl.

Definition today : date := {| dyear := 2024; dmonth := 3; dday := 15 |}.

Definition a_moment : Naive.t :=
  exist _ {| Naive.year := 2024; Naive.month := 2; Naive.day := 29;
             Naive.hour := 23; Naive.minute := 59; Naive.second := 58;
             Naive.microsecond := 120034 |} eq_refl.

(** A store constructed where no file exists. *)
Definition new_world : World := {| store := fresh; disk := Absent |}.

(** Creates interleaved with an update and a delete. *)
Definition session : list call :=
  [ AddTask "Write report" "" HIGH None (Some yesterday) a_moment a_moment;
    AddTask "Email team" "" MEDIUM (Some ["work"; "mail"]) None
      this_morning this_morning;
    UpdateTask 1 None None None (Some IN_PROGRESS) None false None
      this_morning;
    DeleteTask 2;
    AddTask "Plan sprint" "two weeks" LOW (Some ["team"]) (Some tomorrow)
      this_morning this_morning ].

(** The same, then everything is cleared and one more task created. *)
Definition long_session : list call :=
  session
  ++ [ ClearAll;
       AddTask "Start over" "" MEDIUM None None this_morning this_morning ].

(** One task due yesterday and pending, one due yesterday and
    completed, one due tomorrow, one without due date. *)
Definition deadlines : list call :=
  [ AddTask "Write report" "" HIGH None (Some yesterday) a_moment a_moment;
    AddTask "Email team" "" MEDIUM None (Some yesterday) a_moment a_moment;
    AddTask "Plan sprint" "" LOW None (Some tomorrow) a_moment a_moment;
    AddTask "Read" "" LOW None None a_moment a_moment;
    MarkCompleted 2 this_morning ].

Definition report : Task :=
  {| id := 1; title := "Write report"; description := "";
     priority := HIGH; status := PENDING; due_date := Some yesterday;
     created_at := a_moment; updated_at := a_moment; tags := [] |}.

(** A store holding the single task [report], and its file. *)
Definition one_task : World :=
  _save_to_file {| _tasks := [(1, report)]; _next_id := 2 |}.

(** The members of a persisted record of [report], with a choice of
    priority, due date and creation time. *)
Definition members (priority_v due_date_v created_at_v : json)
    : list (string * json) :=
  [ ("id", JInt 1); ("title", JStr "Write report");
    ("description", JStr ""); ("priority", priority_v);
    ("status", JStr "pending"); ("due_date", due_date_v);
    ("created_at", created_at_v);
    ("updated_at", JStr "2024-02-29T23:59:58.120034");
    ("tags", JArr []) ].

Definition stamp : json := JStr "2024-02-29T23:59:58.120034".

(** A file with the given task records and the counter at 2. *)
Definition document (records : list json) : file :=
  Document (JObj [("next_id", JInt 2); ("tasks", JArr records)]).


(** [report] as loaded from a record without due date. *)
Definition report_no_due : Task :=
  {| id := 1; title := "Write report"; description := "";
     priority := HIGH; status := PENDING; due_date := None;
     created_at := a_moment; updated_at := a_moment; tags := [] |}.

End Sample.

From Stdlib Require Import Sorted Permutation.

(** ** The other queries of the store *)

(** What the store and the console use of [str], and [int(s)] ([None]
    stands for its [ValueError]). *)
Class Text : Type := {
  lower : string -> string;
  strip : string -> string;
  int_of_str : string -> option Z
}.

(** [today + timedelta(days=n)]; [None] stands for the [OverflowError]
    of a result outside the range of [date]. *)
Class TimeDelta : Type := {
  plus_days : date -> Z -> option date
}.

(** [a <= b] on dates. *)
Definition date_leb (a b : date) : bool :=
  (dyear a <? dyear b)
  || ((dyear a =? dyear b)
      && ((dmonth a <? dmonth b)
          || ((dmonth a =? dmonth b) && (dday a <=? dday b)))).

Definition Priority_eqb (a b : Priority) : bool :=
  match a, b with
  | LOW, LOW | MEDIUM, MEDIUM | HIGH, HIGH => true
  | _, _ => false
  end.

(** [needle in hay] on strings. *)
Fixpoint contains (needle hay : string) : bool :=
  String.prefix needle hay
  || match hay with
     | EmptyString => false
     | String _ r => contains needle r
     end.

(** [len(l)] *)
Definition len {A : Type} (l : list A) : Z := Z.of_nat (List.length l).

(** Three tests of which each element passes exactly one. *)
Definition exactly_one {A : Type} (p q r : A -> bool) : Prop :=
  forall x, (p x = true /\ q x = false /\ r x = false)
            \/ (p x = false /\ q x = true /\ r x = false)
            \/ (p x = false /\ q x = false /\ r x = true).

(** The dictionaries returned by [get_stats]. *)
Record StatusCounts : Type := {
  pending : Z; in_progress : Z; completed : Z
}.

Record PriorityCounts : Type := {
  high : Z; medium : Z; low : Z
}.

Record Stats : Type := {
  total : Z;
  overdue : Z;
  by_status : StatusCounts;
  by_priority : PriorityCounts
}.

Section Queries.

Context {DT : DateTime} {TX : Text} {TD : TimeDelta}.

Definition has_status (s : Status) (task : Task) : bool :=
  Status_eqb (status task) s.

Definition has_priority (p : Priority) (task : Task) : bool :=
  Priority_eqb (priority task) p.

Definition get_tasks_by_status (status : Status) (self : TaskStore)
    : list Task :=
  filter (has_status status) (dict_values (_tasks self)).

Definition get_tasks_by_priority (priority : Priority) (self : TaskStore)
    : list Task :=
  filter (has_priority priority) (dict_values (_tasks self)).

(** The condition of the comprehension in [search_tasks]. *)
Definition matches (query_lower : string) (task : Task) : bool :=
  contains query_lower (lower (title task))
  || contains query_lower (lower (description task)).

Definition search_tasks (query : string) (self : TaskStore) : list Task :=
  let query_lower := lower query in
  filter (matches query_lower) (dict_values (_tasks self)).

(** The condition of the comprehension in [get_tasks_due_this_week]:
    [today <= task.due_date.date() <= week_end], not COMPLETED. *)
Definition is_due_between (today week_end : date) (task : Task) : bool :=
  match due_date task with
  | None => false
  | Some d => date_leb today (date_of d) && date_leb (date_of d) week_end
              && negb (Status_eqb (status task) COMPLETED)
  end.

Definition get_tasks_due_this_week (today : date) (self : TaskStore)
    : option (list Task) :=
  match plus_days today 7 with
  | None => None
  | Some week_end =>
      Some (filter (is_due_between today week_end)
              (dict_values (_tasks self)))
  end.

Definition get_stats (today : date) (self : TaskStore) : Stats :=
  let tasks := get_all_tasks self in
  {| total := len tasks;
     overdue := len (get_overdue_tasks today self);
     by_status :=
       {| pending := len (filter (has_status PENDING) tasks);
          in_progress := len (filter (has_status IN_PROGRESS) tasks);
          completed := len (filter (has_status COMPLETED) tasks) |};
     by_priority :=
       {| high := len (filter (has_priority HIGH) tasks);
          medium := len (filter (has_priority MEDIUM) tasks);
          low := len (filter (has_priority LOW) tasks) |} |}.

(** Keys in ascending order, all below the counter, each task under
    its own id: the shape of a collection built by creates. *)
Definition in_creation_order (self : TaskStore) : Prop :=
  StronglySorted Z.lt (dict_keys (_tasks self))
  /\ ids_below_counter self
  /\ keyed_by_id (_tasks self).

End Queries.

(** ** ui.py: reading from the console

    [input()] takes the next line of the standard input and raises
    [EOFError] when there is none: a reader is a function of the
    remaining lines that returns [None] when an exception leaves it,
    or its value with the lines left.  What is printed is not
    modelled. *)

Definition reader (A : Type) : Type := list string -> option (A * list string).

Definition is_empty (s : string) : bool := String.eqb s "".

(** [s.split(c)] for a one-character separator. *)
Fixpoint str_split (sep : ascii) (s : string) : list string :=
  match s with
  | EmptyString => [EmptyString]
  | String c r =>
      if Ascii.eqb c sep then EmptyString :: str_split sep r
      else match str_split sep r with
           | h :: t => String c h :: t
           | [] => [String c EmptyString]
           end
  end.

(** [datetime.strptime(s, "%Y-%m-%d")]; [None] stands for its
    [ValueError]. *)
Class StrpTime {DT : DateTime} : Type := {
  strptime_ymd : string -> option datetime
}.

Section Console.

Context {DT : DateTime} {TX : Text} {SP : StrpTime}.

(** The title column of [display_task_list]:
    [task.title[:23] + ".." if len(task.title) > 25 else task.title]. *)
Definition title_display (title : string) : string :=
  if (25 <? String.length title)%nat
  then String.append (String.substring 0 23 title) ".."
  else title.

(** [get_input(prompt, required, default)] *)
Fixpoint get_input (required : bool) (default : string) : reader string :=
  fun stdin =>
    match stdin with
    | [] => None
    | line :: rest =>
        let user_input := strip line in
        if negb (is_empty default) && is_empty user_input then
          Some (default, rest)
        else if negb (is_empty user_input) || negb required then
          Some (user_input, rest)
        else get_input required default rest
    end.

(** [get_int_input(prompt, min_val, max_val)] *)
Fixpoint get_int_input (min_val max_val : option Z) : reader (option Z) :=
  fun stdin =>
    match stdin with
    | [] => None
    | line :: rest =>
        let user_input := strip line in
        if is_empty user_input then Some (None, rest)
        else
          match int_of_str user_input with
          | None => get_int_input min_val max_val rest
          | Some value =>
              if match min_val with Some m => value <? m | None => false end
              then get_int_input min_val max_val rest
              else if match max_val with Some m => m <? value | None => false end
              then get_int_input min_val max_val rest
              else Some (Some value, rest)
          end
    end.

(** [get_choice(prompt, options, allow_cancel)]: the 0-based index of
    the chosen option, [None] for a cancel. *)
Fixpoint get_choice (options : list string) (allow_cancel : bool)
    : reader (option Z) :=
  fun stdin =>
    match stdin with
    | [] => None
    | line :: rest =>
        match int_of_str line with
        | None => get_choice options allow_cancel rest
        | Some choice =>
            if allow_cancel && (choice =? 0) then Some (None, rest)
            else if (1 <=? choice) && (choice <=? len options)
            then Some (Some (choice - 1), rest)
            else get_choice options allow_cancel rest
        end
    end.

(** [l[i]]: a negative index counts from the end; [IndexError] is
    [None]. *)
Definition py_index {A : Type} (l : list A) (i : Z) : option A :=
  if i <? 0 then
    if len l + i <? 0 then None else nth_error l (Z.to_nat (len l + i))
  else nth_error l (Z.to_nat i).

Definition get_priority : reader (option Priority) :=
  fun stdin =>
    match get_choice ["Low"; "Medium"; "High"] true stdin with
    | None => None
    | Some (None, rest) => Some (None, rest)
    | Some (Some choice, rest) =>
        match py_index [LOW; MEDIUM; HIGH] choice with
        | Some p => Some (Some p, rest)
        | None => None
        end
    end.

Definition get_status : reader (option Status) :=
  fun stdin =>
    match get_choice ["Pending"; "In Progress"; "Completed"] true stdin with
    | None => None
    | Some (None, rest) => Some (None, rest)
    | Some (Some choice, rest) =>
        match py_index [PENDING; IN_PROGRESS; COMPLETED] choice with
        | Some s => Some (Some s, rest)
        | None => None
        end
    end.

(** [get_due_date(allow_clear)]: the pair [(due_date, should_clear)]. *)
Fixpoint get_due_date (allow_clear : bool)
    : reader (option datetime * bool) :=
  fun stdin =>
    match stdin with
    | [] => None
    | line :: rest =>
        let user_input := strip line in
        if is_empty user_input then Some ((None, false), rest)
        else if allow_clear && String.eqb (lower user_input) "clear"
        then Some ((None, true), rest)
        else
          match strptime_ymd user_input with
          | Some due_date => Some ((Some due_date, false), rest)
          | None => get_due_date allow_clear rest
          end
    end.

(** [confirm(prompt, default)] *)
Definition confirm (default : bool) : reader bool :=
  fun stdin =>
    match stdin with
    | [] => None
    | line :: rest =>
        let response := lower (strip line) in
        if is_empty response then Some (default, rest)
        else Some (String.eqb response "y" || String.eqb response "yes", rest)
    end.

(** ** main.py: the menu actions on the store

    Each action reads its answers from the console and returns the
    world it leaves with the lines left ([None] when [input()] raised
    [EOFError]). *)


(** The answers [update_task()] of main.py collects once the task is
    found, as the arguments it passes to the store. *)
Record UpdateArgs : Type := {
  arg_title : option string;
  arg_description : option string;
  arg_priority : option Priority;
  arg_status : option Status;
  arg_due_date : option datetime;
  arg_clear_due_date : bool
}.

Definition ask_choice {A : Type} (ask : reader (option A))
    : reader (option A) :=
  fun stdin =>
    match confirm false stdin with
    | None => None
    | Some (true, rest) => ask rest
    | Some (false, rest) => Some (None, rest)
    end.

Definition ask_update (task : Task) : reader UpdateArgs :=
  fun stdin =>
    match get_input false (title task) stdin with
    | None => None
    | Some (new_title, stdin1) =>
        match get_input false (description task) stdin1 with
        | None => None
        | Some (new_description, stdin2) =>
            match ask_choice get_priority stdin2 with
            | None => None
            | Some (new_priority, stdin3) =>
                match ask_choice get_status stdin3 with
                | None => None
                | Some (new_status, stdin4) =>
                    match confirm false stdin4 with
                    | None => None
                    | Some (change, stdin5) =>
                        match (if change then get_due_date true stdin5
                               else Some ((None, false), stdin5)) with
                        | None => None
                        | Some ((new_due_date, clear_due_date), stdin6) =>
                            Some
                              ({| arg_title :=
                                    if String.eqb new_title (title task)
                                    then None else Some new_title;
                                  arg_description :=
                                    if String.eqb new_description
                                         (description task)
                                    then None else Some new_description;
                                  arg_priority := new_priority;
                                  arg_status := new_status;
                                  arg_due_date := new_due_date;
                                  arg_clear_due_date := clear_due_date |},
                               stdin6)
                        end
                    end
                end
            end
        end
    end.

(** [update_task()] of main.py. *)
Definition cli_update_task (now : datetime) (w : World) : reader World :=
  fun stdin =>
    match get_int_input None None stdin with
    | None => None
    | Some (None, rest) => Some (w, rest)
    | Some (Some task_id, rest) =>
        match get_task task_id (store w) with
        | None => Some (w, rest)
        | Some task =>
            match ask_update task rest with
            | None => None
            | Some (a, rest') =>
                Some (snd (update_task task_id (arg_title a)
                             (arg_description a) (arg_priority a)
                             (arg_status a) (arg_due_date a)
                             (arg_clear_due_date a) None now w),
                      rest')
            end
        end
    end.



End Console.

(** ** Implementations for the concrete runs *)

(** [str] methods on ASCII text. *)
Module AsciiText.

Definition code (c : ascii) : Z := Z.of_N (N_of_ascii c).

Definition lower_char (c : ascii) : ascii :=
  if (65 <=? code c) && (code c <=? 90)
  then ascii_of_N (N_of_ascii c + 32)
  else c.

Fixpoint lower (s : string) : string :=
  match s with
  | EmptyString => EmptyString
  | String c r => String (lower_char c) (lower r)
  end.

(** The ASCII characters [str.strip] removes. *)
Definition is_space (c : ascii) : bool :=
  ((9 <=? code c) && (code c <=? 13))
  || ((28 <=? code c) && (code c <=? 32)).

Fixpoint lstrip (s : string) : string :=
  match s with
  | EmptyString => EmptyString
  | String c r => if is_space c then lstrip r else s
  end.

Fixpoint rstrip (s : string) : string :=
  match s with
  | EmptyString => EmptyString
  | String c r =>
      match rstrip r with
      | EmptyString => if is_space c then EmptyString
                       else String c EmptyString
      | r' => String c r'
      end
  end.

Definition strip (s : string) : string := rstrip (lstrip s).

Fixpoint digits (acc : Z) (s : string) : option Z :=
  match s with
  | EmptyString => Some acc
  | String c r =>
      match Naive.digit_val c with
      | Some v => digits (acc * 10 + v) r
      | None => None
      end
  end.

(** One or more decimal digits. *)
Definition unsigned (s : string) : option Z :=
  match s with
  | EmptyString => None
  | _ => digits 0 s
  end.

(** [int(s)] for a decimal literal with an optional sign, spaces
    around it allowed. *)
Definition int_of_str (s : string) : option Z :=
  match strip s with
  | String "-" r => option_map Z.opp (unsigned r)
  | String "+" r => unsigned r
  | r => unsigned r
  end.

End AsciiText.

Definition AsciiStr : Text :=
  {| lower := AsciiText.lower;
     strip := AsciiText.strip;
     int_of_str := AsciiText.int_of_str |}.

(** Dates as day numbers of the proleptic Gregorian calendar, day 1
    being 0001-01-01, for [date + timedelta]. *)
Module Gregorian.

Definition days_before_year (year : Z) : Z :=
  let y := year - 1 in y * 365 + y / 4 - y / 100 + y / 400.

Definition days_before_month (year month : Z) : Z :=
  nth (Z.to_nat month) [0; 0; 31; 59; 90; 120; 151; 181; 212; 243; 273;
                        304; 334] 0
  + (if (2 <? month) && Naive.is_leap year then 1 else 0).

Definition toordinal (d : date) : Z :=
  days_before_year (dyear d) + days_before_month (dyear d) (dmonth d)
  + dday d.

Definition fromordinal (ordinal : Z) : date :=
  let n := ordinal - 1 in
  let n400 := n / 146097 in
  let n := n mod 146097 in
  let n100 := n / 36524 in
  let n := n mod 36524 in
  let n4 := n / 1461 in
  let n := n mod 1461 in
  let n1 := n / 365 in
  let n := n mod 365 in
  let year := n400 * 400 + 1 + n100 * 100 + n4 * 4 + n1 in
  if (n1 =? 4) || (n100 =? 4) then
    {| dyear := year - 1; dmonth := 12; dday := 31 |}
  else
    let leapyear := (n1 =? 3) && (negb (n4 =? 24) || (n100 =? 3)) in
    let month := Z.shiftr (n + 50) 5 in
    let preceding :=
      days_before_month 1 month
      + (if (2 <? month) && leapyear then 1 else 0) in
    if n <? preceding then
      let month := month - 1 in
      let preceding :=
        preceding
        - (Naive.days_in_month 1 month
           + (if (month =? 2) && leapyear then 1 else 0)) in
      {| dyear := year; dmonth := month; dday := n - preceding + 1 |}
    else
      {| dyear := year; dmonth := month; dday := n - preceding + 1 |}.

(** The ordinal of 9999-12-31. *)
Definition max_ordinal : Z := 3652059.

Definition plus_days (d : date) (days : Z) : option date :=
  let o := toordinal d + days in
  if (0 <? o) && (o <=? max_ordinal) then Some (fromordinal o) else None.

End Gregorian.

Definition GregorianDelta : TimeDelta :=
  {| plus_days := Gregorian.plus_days |}.

(** [strptime(s, "%Y-%m-%d")] for offset-naive datetimes: four digits,
    then one or two digits for the month and for the day, at midnight. *)
Definition naive_strptime_ymd (s : string) : option Naive.t :=
  match str_split "-" s with
  | [y; m; d] =>
      if (String.length y =? 4)%nat
         && (String.length m <=? 2)%nat && (String.length d <=? 2)%nat
      then
        match AsciiText.unsigned y, AsciiText.unsigned m,
              AsciiText.unsigned d with
        | Some year, Some month, Some day =>
            Naive.make {| Naive.year := year; Naive.month := month;
                          Naive.day := day; Naive.hour := 0;
                          Naive.minute := 0; Naive.second := 0;
                          Naive.microsecond := 0 |}
        | _, _, _ => None
        end
      else None
  | _ => None
  end.

Definition NaiveStrpTime : @StrpTime NaiveDateTime :=
  @Build_StrpTime NaiveDateTime naive_strptime_ymd.

(** ** More concrete values *)

Module Scene.

#[local] Existing Instance NaiveDateTime.
#[local] Existing Instance AsciiStr.
#[local] Existing Instance GregorianDelta.
#[local] Existing Instance NaiveStrpTime.

(** The world after [Sample.deadlines]: task 1 pending and due
    yesterday, task 2 completed, task 3 due tomorrow, task 4 without
    due date. *)
Definition desk : World := run Sample.deadlines Sample.new_world.

Definition next_week : date := {| dyear := 2024; dmonth := 3; dday := 22 |}.

(** A store constructed from a file whose counter is the id of its
    only task. *)
Definition stale_counter : World :=
  {| store := {| _tasks := [(1, Sample.report)]; _next_id := 1 |};
     disk := Document (save_data
                         {| _tasks := [(1, Sample.report)];
                            _next_id := 1 |}) |}.

(** Two records for the id 1, written from two states of the task. *)
Definition report_done : Task :=
  {| id := 1; title := "Write report"; description := "sent";
     priority := HIGH; status := COMPLETED;
     due_date := Some Sample.yesterday;
     created_at := Sample.a_moment; updated_at := Sample.this_morning;
     tags := [] |}.


(** Answers to the questions of [update_task()] for task 1: blank
    title and description, no new priority, the status Completed, no
    new due date. *)
Definition update_answers : list string :=
  [" 1"; " "; ""; "n"; "Y"; "3"; ""].


(** Task 3 of [desk]. *)
Definition plan : Task :=
  {| id := 3; title := "Plan sprint"; description := "";
     priority := LOW; status := PENDING;
     due_date := Some Sample.tomorrow;
     created_at := Sample.a_moment; updated_at := Sample.a_moment;
     tags := [] |}.

(** 2024-03-16 at midnight, as [strptime] reads it. *)
Definition milk_day : Naive.t :=
  exist _ {| Naive.year := 2024; Naive.month := 3; Naive.day := 16;
             Naive.hour := 0; Naive.minute := 0; Naive.second := 0;
             Naive.microsecond := 0 |} eq_refl.

(** The worlds the three menu actions leave on [Sample.one_task]. *)
Definition after_add : World :=
  snd (add_task "Buy milk" "" HIGH (Some ["home"; "shop"]) (Some milk_day)
         Sample.this_morning Sample.this_morning Sample.one_task).

Definition after_update : World :=
  snd (update_task 1 None None None (Some COMPLETED) None false None
         Sample.this_morning Sample.one_task).


End Scene.

(** * Properties *)

(** ** Dicts *)

Section DictFacts.

Context {V : Type}.
Implicit Types (d : dict V) (k : Z) (v : V).

Lemma dict_get_none_iff d k :
  dict_get k d = None <-> ~ In k (dict_keys d).
Proof.
  induction d as [|[k' v'] r IH]; simpl.
  - tauto.
  - destruct (Z.eqb_spec k k') as [->|Hne].
    + split; [discriminate | intros H; exfalso; apply H; now left].
    + rewrite IH. split.
      * intros H [E|E]; [congruence | tauto].
      * tauto.
Qed.

Lemma dict_get_in d k v :
  dict_get k d = Some v -> In (k, v) d.
Proof.
  induction d as [|[k' v'] r IH]; simpl; [discriminate|].
  destruct (Z.eqb_spec k k') as [->|Hne].
  - intros [= ->]. now left.
  - intros H. right. now apply IH.
Qed.

Lemma dict_get_set_same d k v :
  dict_get k (dict_set k v d) = Some v.
Proof.
  induction d as [|[k' v'] r IH]; simpl.
  - now rewrite Z.eqb_refl.
  - destruct (Z.eqb_spec k k') as [->|Hne]; simpl.
    + now rewrite Z.eqb_refl.
    + destruct (Z.eqb_spec k k'); [contradiction | exact IH].
Qed.

Lemma dict_get_set_other d k k' v :
  k' <> k -> dict_get k' (dict_set k v d) = dict_get k' d.
Proof.
  intros Hne.
  induction d as [|[k0 v0] r IH]; simpl.
  - destruct (Z.eqb_spec k' k); [contradiction | reflexivity].
  - destruct (Z.eqb_spec k k0) as [->|Hk]; simpl.
    + destruct (Z.eqb_spec k' k0); [contradiction | reflexivity].
    + now rewrite IH.
Qed.

Lemma dict_keys_set d k v k' :
  In k' (dict_keys (dict_set k v d)) <-> k' = k \/ In k' (dict_keys d).
Proof.
  induction d as [|[k0 v0] r IH]; simpl.
  - intuition.
  - destruct (Z.eqb_spec k k0) as [->|Hk]; simpl.
    + intuition.
    + rewrite IH. intuition.
Qed.

Lemma dict_keys_del d k k' :
  In k' (dict_keys (dict_del k d)) -> In k' (dict_keys d).
Proof.
  induction d as [|[k0 v0] r IH]; simpl; [tauto|].
  destruct (Z.eqb_spec k k0) as [->|Hk]; simpl; intuition.
Qed.

(** A store to a new key appends the entry. *)
Lemma dict_set_new d k v :
  ~ In k (dict_keys d) -> dict_set k v d = d ++ [(k, v)].
Proof.
  induction d as [|[k0 v0] r IH]; simpl; intros H; [reflexivity|].
  destruct (Z.eqb_spec k k0) as [->|Hk].
  - exfalso. apply H. now left.
  - f_equal. apply IH. tauto.
Qed.

Lemma dict_keys_set_nodup d k v :
  NoDup (dict_keys d) -> NoDup (dict_keys (dict_set k v d)).
Proof.
  induction d as [|[k0 v0] r IH]; simpl; intros H.
  - constructor; [tauto | constructor].
  - inversion H as [|? ? Hnin Hnd]; subst.
    destruct (Z.eqb_spec k k0) as [->|Hk]; simpl.
    + now constructor.
    + constructor; [|now apply IH].
      intros Hin. apply dict_keys_set in Hin. destruct Hin; [congruence | tauto].
Qed.

Lemma dict_keys_del_nodup d k :
  NoDup (dict_keys d) -> NoDup (dict_keys (dict_del k d)).
Proof.
  induction d as [|[k0 v0] r IH]; simpl; intros H; [constructor|].
  inversion H as [|? ? Hnin Hnd]; subst.
  destruct (Z.eqb_spec k k0) as [->|Hk]; simpl; [assumption|].
  constructor; [|now apply IH].
  intros Hin. apply Hnin. eapply dict_keys_del, Hin.
Qed.

Lemma dict_del_absent d k :
  NoDup (dict_keys d) -> ~ In k (dict_keys (dict_del k d)).
Proof.
  induction d as [|[k0 v0] r IH]; simpl; intros H; [tauto|].
  inversion H as [|? ? Hnin Hnd]; subst.
  destruct (Z.eqb_spec k k0) as [->|Hk]; simpl; [assumption|].
  intros [E|Hin]; [congruence | now apply IH].
Qed.

Lemma dict_set_forall (P : Z * V -> Prop) d k v :
  P (k, v) -> Forall P d -> Forall P (dict_set k v d).
Proof.
  intros Hkv.
  induction d as [|[k0 v0] r IH]; simpl; intros H.
  - now repeat constructor.
  - inversion H; subst.
    destruct (Z.eqb_spec k k0) as [->|Hk]; constructor; auto.
Qed.

Lemma dict_del_forall (P : Z * V -> Prop) d k :
  Forall P d -> Forall P (dict_del k d).
Proof.
  induction d as [|[k0 v0] r IH]; simpl; intros H; [constructor|].
  inversion H; subst.
  destruct (Z.eqb k k0); [assumption | constructor; auto].
Qed.

End DictFacts.

(** ** Dates *)

Lemma date_ltb_spec (a b : date) :
  date_ltb a b = true <->
  dyear a < dyear b
  \/ (dyear a = dyear b
      /\ (dmonth a < dmonth b \/ (dmonth a = dmonth b /\ dday a < dday b))).
Proof.
  unfold date_ltb.
  now rewrite !orb_true_iff, !andb_true_iff, orb_true_iff, andb_true_iff,
    !Z.ltb_lt, !Z.eqb_eq.
Qed.

Lemma date_ltb_asym (a b : date) :
  date_ltb a b = true -> date_ltb b a = false.
Proof.
  intros H. destruct (date_ltb b a) eqn:E; [|reflexivity].
  apply date_ltb_spec in H, E. lia.
Qed.

Lemma Status_eqb_eq (a b : Status) : Status_eqb a b = true <-> a = b.
Proof. destruct a, b; simpl; split; congruence. Qed.

(** ** The operations of the store *)

Section StoreFacts.

Context {DT : DateTime}.

Lemma get_task_absent (self : TaskStore) (task_id : Z) :
  ~ In task_id (dict_keys (_tasks self)) -> get_task task_id self = None.
Proof. intros H. now apply dict_get_none_iff. Qed.

(** C1, as the code has it: [add_task] does not validate the title.
    For every title, the empty one included, the call returns a task
    with that title and the current counter as id, stores it under that
    id, advances the counter by one and rewrites the file with the new
    collection. *)
Theorem add_task_accepts_every_title (w : World) (new_title new_description : string)
    (new_priority : Priority) (new_tags : option (list string))
    (due : option datetime) (now_created now_updated : datetime) :
  let r := add_task new_title new_description new_priority new_tags due
             now_created now_updated w in
  title (fst r) = new_title
  /\ id (fst r) = _next_id (store w)
  /\ get_task (_next_id (store w)) (store (snd r)) = Some (fst r)
  /\ _next_id (store (snd r)) = _next_id (store w) + 1
  /\ disk (snd r) = Document (save_data (store (snd r))).
Proof.
  simpl. repeat split.
  unfold get_task; simpl. apply dict_get_set_same.
Qed.

(** C5: [update_task] with only a status keeps title, description,
    priority, due date and tags (and id and creation time) of the task;
    the status becomes the given one and [updated_at] the clock reading.
    The returned task is the stored one, and no other task changes. *)
Theorem update_status_only_frame (w : World) (task_id : Z)
    (new_status : Status) (now : datetime) (task : Task) :
  get_task task_id (store w) = Some task ->
  let r := update_task task_id None None None (Some new_status) None false
             None now w in
  let task' := {| id := id task;
                  title := title task;
                  description := description task;
                  priority := priority task;
                  status := new_status;
                  due_date := due_date task;
                  created_at := created_at task;
                  updated_at := now;
                  tags := tags task |} in
  fst r = Some task'
  /\ get_task task_id (store (snd r)) = Some task'
  /\ (forall k, k <> task_id ->
        get_task k (store (snd r)) = get_task k (store w)).
Proof.
  unfold get_task, update_task. intros H. rewrite H.
  destruct task; simpl. repeat split.
  - apply dict_get_set_same.
  - intros k Hk. now apply dict_get_set_other.
Qed.

(** C6: with the clear flag set, the due date of the task ends absent
    whatever due date is passed along, and whatever the other
    arguments are. *)
Theorem clear_due_date_takes_precedence (w : World) (task_id : Z)
    (new_title new_description : option string)
    (new_priority : option Priority) (new_status : option Status)
    (D : datetime) (new_tags : option (list string)) (now : datetime)
    (task : Task) :
  get_task task_id (store w) = Some task ->
  let r := update_task task_id new_title new_description new_priority
             new_status (Some D) true new_tags now w in
  exists task',
    fst r = Some task'
    /\ get_task task_id (store (snd r)) = Some task'
    /\ due_date task' = None.
Proof.
  unfold get_task, update_task. intros H. rewrite H. simpl.
  eexists. split; [reflexivity|]. split.
  - apply dict_get_set_same.
  - destruct task; reflexivity.
Qed.

(** C7: [get_overdue_tasks] keeps, in the order of the collection,
    exactly the tasks that have a due date whose date is before today
    and whose status is not COMPLETED.  So a stored task due before
    today is listed when PENDING and not listed when COMPLETED, and a
    task due after today is not listed. *)
Theorem overdue_exactly (self : TaskStore) (today : date) :
  (forall task,
     In task (get_overdue_tasks today self) <->
     In task (get_all_tasks self)
     /\ exists d, due_date task = Some d
                  /\ date_ltb (date_of d) today = true
                  /\ status task <> COMPLETED)
  /\ (forall task d,
        In task (get_all_tasks self) -> due_date task = Some d ->
        date_ltb (date_of d) today = true -> status task = PENDING ->
        In task (get_overdue_tasks today self))
  /\ (forall task d,
        due_date task = Some d ->
        date_ltb (date_of d) today = true -> status task = COMPLETED ->
        ~ In task (get_overdue_tasks today self))
  /\ (forall task d,
        due_date task = Some d -> date_ltb today (date_of d) = true ->
        ~ In task (get_overdue_tasks today self)).
Proof.
  assert (Hiff : forall task,
     In task (get_overdue_tasks today self) <->
     In task (get_all_tasks self)
     /\ exists d, due_date task = Some d
                  /\ date_ltb (date_of d) today = true
                  /\ status task <> COMPLETED).
  { intros task. unfold get_overdue_tasks, get_all_tasks.
    rewrite filter_In. unfold is_overdue. split.
    - intros [Hin Hov]. split; [assumption|].
      destruct (due_date task) as [d|]; [|discriminate].
      apply andb_true_iff in Hov. destruct Hov as [Hlt Hst].
      exists d. repeat split; [assumption|].
      intros E. rewrite E in Hst. discriminate.
    - intros [Hin [d [Hd [Hlt Hst]]]]. split; [assumption|].
      rewrite Hd, Hlt. simpl.
      destruct (Status_eqb (status task) COMPLETED) eqn:E; [|reflexivity].
      apply Status_eqb_eq in E. contradiction. }
  split; [exact Hiff|]. repeat split.
  - intros task d Hin Hd Hlt Hst. apply Hiff. split; [assumption|].
    exists d. repeat split; try assumption. congruence.
  - intros task d Hd Hlt Hst Hin. apply Hiff in Hin.
    destruct Hin as [_ [d' [_ [_ Hne]]]]. contradiction.
  - intros task d Hd Hlt Hin. apply Hiff in Hin.
    destruct Hin as [_ [d' [Hd' [Hlt' _]]]].
    rewrite Hd in Hd'. injection Hd' as <-.
    apply date_ltb_asym in Hlt. congruence.
Qed.

(** C8: for an id that is not a key of the collection, [get_task]
    returns [None]; [update_task] (with any arguments) and
    [mark_completed] return [None] and leave store and file as they
    were; [delete_task] returns [False] and leaves store and file as
    they were, the second time as the first. *)
Theorem absent_id_is_signalled (w : World) (task_id : Z) :
  ~ In task_id (dict_keys (_tasks (store w))) ->
  get_task task_id (store w) = None
  /\ (forall t d p s du cl tg now,
        update_task task_id t d p s du cl tg now w = (None, w))
  /\ (forall now, mark_completed task_id now w = (None, w))
  /\ delete_task task_id w = (false, w)
  /\ delete_task task_id (snd (delete_task task_id w)) = (false, w).
Proof.
  intros H. pose proof (get_task_absent _ _ H) as Hget.
  unfold get_task in Hget.
  assert (Hdel : delete_task task_id w = (false, w)).
  { unfold delete_task, dict_contains. now rewrite Hget. }
  repeat split.
  - exact Hget.
  - intros. unfold update_task. now rewrite Hget.
  - intros. unfold mark_completed, update_task. now rewrite Hget.
  - exact Hdel.
  - rewrite Hdel. exact Hdel.
Qed.

(** C9, as the code has it: a title passed to [update_task] overwrites
    the stored title whatever it is; the empty string is stored like
    any other title, there is no validation. *)
Theorem update_title_overwrites (w : World) (task_id : Z)
    (new_title : string) (now : datetime) (task : Task) :
  get_task task_id (store w) = Some task ->
  let r := update_task task_id (Some new_title) None None None None false
             None now w in
  exists task',
    fst r = Some task'
    /\ get_task task_id (store (snd r)) = Some task'
    /\ title task' = new_title.
Proof.
  unfold get_task, update_task. intros H. rewrite H. simpl.
  eexists. split; [reflexivity|]. split.
  - apply dict_get_set_same.
  - destruct task; reflexivity.
Qed.

End StoreFacts.

(** ** Identifier allocation *)

Section Identifiers.

Context {DT : DateTime}.

Lemma update_task_next_id (w : World) i t d p s du cl tg now :
  _next_id (store (snd (update_task i t d p s du cl tg now w)))
  = _next_id (store w).
Proof.
  unfold update_task. now destruct (dict_get i (_tasks (store w))).
Qed.

Lemma delete_task_next_id (w : World) (i : Z) :
  _next_id (store (snd (delete_task i w))) = _next_id (store w).
Proof.
  unfold delete_task. now destruct (dict_contains i (_tasks (store w))).
Qed.

Lemma step_next_id (c : call) (w : World) :
  _next_id (store (step c w))
  = if is_create c then _next_id (store w) + 1 else _next_id (store w).
Proof.
  destruct c; simpl; try reflexivity.
  - apply update_task_next_id.
  - apply update_task_next_id.
  - apply delete_task_next_id.
Qed.

Lemma step_keys (c : call) (w : World) (k : Z) :
  In k (dict_keys (_tasks (store (step c w)))) ->
  In k (dict_keys (_tasks (store w)))
  \/ (is_create c = true /\ k = _next_id (store w)).
Proof.
  destruct c; simpl.
  - intros H. apply dict_keys_set in H. destruct H; auto.
  - unfold update_task.
    destruct (dict_get task_id (_tasks (store w))) eqn:E; simpl; auto.
    intros H. apply dict_keys_set in H. destruct H as [->|H]; auto.
    left. destruct (in_dec Z.eq_dec task_id (dict_keys (_tasks (store w))));
      [assumption|].
    apply dict_get_none_iff in n. congruence.
  - unfold mark_completed, update_task.
    destruct (dict_get task_id (_tasks (store w))) eqn:E; simpl; auto.
    intros H. apply dict_keys_set in H. destruct H as [->|H]; auto.
    left. destruct (in_dec Z.eq_dec task_id (dict_keys (_tasks (store w))));
      [assumption|].
    apply dict_get_none_iff in n. congruence.
  - unfold delete_task.
    destruct (dict_contains task_id (_tasks (store w))); simpl; auto.
    intros H. left. eapply dict_keys_del, H.
  - tauto.
Qed.

Lemma step_ids_below_counter (c : call) (w : World) :
  ids_below_counter (store w) -> ids_below_counter (store (step c w)).
Proof.
  intros Hinv k Hk. rewrite step_next_id.
  apply step_keys in Hk. destruct Hk as [Hk|[Hc ->]].
  - apply Hinv in Hk. destruct (is_create c); lia.
  - rewrite Hc. lia.
Qed.

Lemma run_ids_below_counter (cs : list call) (w : World) :
  ids_below_counter (store w) -> ids_below_counter (store (run cs w)).
Proof.
  revert w. induction cs as [|c r IH]; simpl; intros w H; [assumption|].
  apply IH. now apply step_ids_below_counter.
Qed.

Lemma created_ids_count_from (cs : list call) (w : World) :
  created_ids cs w = count_from (_next_id (store w)) (creates cs).
Proof.
  revert w. induction cs as [|c r IH]; intros w; [reflexivity|].
  simpl. rewrite IH, step_next_id. unfold creates. simpl.
  destruct c; reflexivity.
Qed.

Lemma run_next_id (cs : list call) (w : World) :
  _next_id (store (run cs w))
  = _next_id (store w) + Z.of_nat (creates cs).
Proof.
  revert w. induction cs as [|c r IH]; intros w; simpl.
  - unfold creates. simpl. lia.
  - rewrite IH, step_next_id. unfold creates. simpl.
    destruct (is_create c); simpl List.length; lia.
Qed.

Lemma count_from_lower (n : Z) (k : nat) (i : Z) :
  In i (count_from n k) -> n <= i.
Proof.
  revert n. induction k as [|k IH]; simpl; intros n H; [contradiction|].
  destruct H as [<-|H]; [lia|]. apply IH in H. lia.
Qed.

Lemma count_from_upper (n : Z) (k : nat) (i : Z) :
  In i (count_from n k) -> i < n + Z.of_nat k.
Proof.
  revert n. induction k as [|k IH]; simpl count_from; intros n H;
    [contradiction|].
  destruct H as [<-|H]; [lia|]. apply IH in H. lia.
Qed.

(** C3: whatever calls are interleaved, the ids assigned by the creates
    of a sequence are the counter of the start, then that plus one, and
    so on, one per create (1, 2, 3, ... from the fresh store, whose
    counter is 1); the counter ends at its start plus the number of
    creates; neither [delete_task] nor [clear_all] changes the counter;
    an id assigned by a create of the sequence is assigned by no later
    create, whether its task is deleted meanwhile or not.  When the ids
    in use at the start are below the counter, as in the fresh store,
    they still are at the end, and an id that is a key of the
    collection at any point of the sequence is assigned by no later
    create. *)
Theorem ids_increase_by_one_and_are_never_reused (w : World) (cs : list call) :
  created_ids cs w = count_from (_next_id (store w)) (creates cs)
  /\ (_next_id fresh = 1 /\ ids_below_counter fresh)
  /\ _next_id (store (run cs w)) = _next_id (store w) + Z.of_nat (creates cs)
  /\ (forall w' i,
        _next_id (store (snd (delete_task i w'))) = _next_id (store w'))
  /\ (forall w',
        _next_id (store (snd (clear_all w'))) = _next_id (store w'))
  /\ (forall pre post i,
        cs = pre ++ post ->
        In i (created_ids pre w) ->
        ~ In i (created_ids post (run pre w)))
  /\ (ids_below_counter (store w) ->
      ids_below_counter (store (run cs w))
      /\ forall pre post i,
           cs = pre ++ post ->
           In i (dict_keys (_tasks (store (run pre w)))) ->
           ~ In i (created_ids post (run pre w))).
Proof.
  split; [apply created_ids_count_from|].
  split; [split; [reflexivity | intros k []]|].
  split; [apply run_next_id|].
  split; [intros; apply delete_task_next_id|].
  split; [reflexivity|].
  split.
  - intros pre post i _ Hin Hre.
    rewrite created_ids_count_from in Hin, Hre.
    apply count_from_upper in Hin. apply count_from_lower in Hre.
    rewrite run_next_id in Hre. lia.
  - intros Hinv. split; [now apply run_ids_below_counter|].
    intros pre post i _ Hin Hre.
    rewrite created_ids_count_from in Hre. apply count_from_lower in Hre.
    apply (run_ids_below_counter pre) in Hinv. apply Hinv in Hin. lia.
Qed.

End Identifiers.

(** ** Persistence *)

Section Persistence.

Context {DT : DateTime} {JD : JsonDecoder}.

Lemma well_keyed_set (d : dict Task) (task : Task) :
  well_keyed d -> well_keyed (dict_set (id task) task d).
Proof.
  intros [Hnd Hk]. split.
  - now apply dict_keys_set_nodup.
  - now apply dict_set_forall.
Qed.

Lemma well_keyed_del (d : dict Task) (k : Z) :
  well_keyed d -> well_keyed (dict_del k d).
Proof.
  intros [Hnd Hk]. split.
  - now apply dict_keys_del_nodup.
  - now apply dict_del_forall.
Qed.

Lemma well_keyed_get (d : dict Task) (k : Z) (task : Task) :
  well_keyed d -> dict_get k d = Some task -> k = id task.
Proof.
  intros [_ Hk] Hget. apply dict_get_in in Hget.
  unfold keyed_by_id in Hk. rewrite Forall_forall in Hk.
  exact (Hk _ Hget).
Qed.

Lemma apply_update_id t d p s du cl tg now (task : Task) :
  id (apply_update t d p s du cl tg now task) = id task.
Proof. now destruct task. Qed.

Lemma step_well_keyed (c : call) (w : World) :
  well_keyed (_tasks (store w)) -> well_keyed (_tasks (store (step c w))).
Proof.
  intros H. destruct c; simpl.
  - exact (well_keyed_set _ (Build_Task _ _ _ _ _ _ _ _ _) H).
  - unfold update_task.
    destruct (dict_get task_id (_tasks (store w))) as [task|] eqn:E;
      simpl; [|assumption].
    rewrite (well_keyed_get _ _ _ H E).
    rewrite <- (apply_update_id title0 description0 priority0 status0
                  due_date0 clear_due_date tags0 now task) at 1.
    now apply well_keyed_set.
  - unfold mark_completed, update_task.
    destruct (dict_get task_id (_tasks (store w))) as [task|] eqn:E;
      simpl; [|assumption].
    rewrite (well_keyed_get _ _ _ H E).
    rewrite <- (apply_update_id None None None (Some COMPLETED) None false
                  None now task) at 1.
    now apply well_keyed_set.
  - unfold delete_task.
    destruct (dict_contains task_id (_tasks (store w))); simpl;
      [now apply well_keyed_del | assumption].
  - split; constructor.
Qed.

(** Whatever the id, a second [delete_task] finds nothing to delete. *)
Lemma delete_task_twice (w : World) (task_id : Z) :
  well_keyed (_tasks (store w)) ->
  fst (delete_task task_id (snd (delete_task task_id w))) = false.
Proof.
  intros [Hnd _]. unfold delete_task at 2. unfold dict_contains.
  destruct (dict_get task_id (_tasks (store w))) eqn:E; simpl.
  - unfold delete_task, dict_contains. simpl.
    now rewrite (proj2 (dict_get_none_iff _ _) (dict_del_absent _ task_id Hnd)).
  - unfold delete_task, dict_contains. now rewrite E.
Qed.

Lemma load_tasks_untyped (items : list json) (d : dict Task) :
  load_tasks items None <> Ok (Some d).
Proof.
  induction items as [|x r IH]; simpl; [discriminate|].
  destruct (load_task x) as [raw|e]; simpl; [|discriminate].
  destruct (hashable (raw_id raw)); [|discriminate].
  destruct (typed_task raw); exact IH.
Qed.

Lemma load_tasks_well_keyed (items : list json) (acc d : dict Task) :
  load_tasks items (Some acc) = Ok (Some d) ->
  well_keyed acc -> well_keyed d.
Proof.
  revert acc. induction items as [|x r IH]; simpl; intros acc H Hacc.
  - now injection H as <-.
  - destruct (load_task x) as [raw|e]; simpl in H; [|discriminate].
    destruct (hashable (raw_id raw)); [|discriminate].
    destruct (typed_task raw) as [task|].
    + eapply IH; [exact H|]. now apply well_keyed_set.
    + now apply load_tasks_untyped in H.
Qed.

(** The documents the store writes nest four levels deep at most, so
    [json.load] reads them back. *)
Lemma json_depth_tags (tags : list string) :
  list_max (map json_depth (map JStr tags)) = O.
Proof. induction tags as [|t r IH]; [reflexivity | exact IH]. Qed.

Lemma json_depth_task_record (task : Task) :
  (json_depth (task_record task) <= 2)%nat.
Proof.
  unfold task_record. cbn [json_depth map snd list_max fold_right].
  rewrite json_depth_tags. destruct (due_date task); cbn; lia.
Qed.

Lemma json_depth_records (n : Z) (tasks : list Task) :
  (json_depth (JObj [("next_id", JInt n);
                     ("tasks", JArr (map task_record tasks))]) <= 4)%nat.
Proof.
  cbn [json_depth map snd list_max fold_right].
  rewrite map_map.
  assert (H : (list_max (map (fun t => json_depth (task_record t)) tasks)
               <= 2)%nat).
  { apply list_max_le, Forall_forall. intros k Hin.
    apply in_map_iff in Hin as [t [<- _]]. apply json_depth_task_record. }
  lia.
Qed.

Lemma json_load_records (n : Z) (tasks : list Task) :
  let data := JObj [("next_id", JInt n);
                    ("tasks", JArr (map task_record tasks))] in
  json_load data = Ok data.
Proof.
  intros data. unfold json_load.
  destruct (Nat.leb_spec (json_depth data) max_depth) as [_|H];
    [reflexivity|].
  pose proof (json_depth_records n tasks). pose proof max_depth_room.
  fold data in H0. lia.
Qed.

Lemma json_load_save_data (self : TaskStore) :
  json_load (save_data self) = Ok (save_data self).
Proof. apply json_load_records. Qed.

Lemma init_well_keyed (f : file) (self : TaskStore) :
  __init__ f = Constructed self -> well_keyed (_tasks self).
Proof.
  assert (Hfresh : well_keyed (_tasks fresh)) by (split; constructor).
  unfold __init__, _load_from_file. destruct f as [|nesting|data].
  - now intros [= <-].
  - unfold decode_error. destruct (nesting <=? max_depth)%nat; simpl;
      [now intros [= <-] | discriminate].
  - unfold json_load. destruct (json_depth data <=? max_depth)%nat; simpl;
      [|discriminate].
    destruct (load_data data fresh) as [[self'|]|e] eqn:E; simpl.
    + intros [= <-]. unfold load_data in E.
      destruct (py_get data "next_id" (JInt 1)) as [n|]; simpl in E;
        [|discriminate].
      destruct (py_get data "tasks" (JArr [])) as [tv|]; simpl in E;
        [|discriminate].
      destruct (py_iter tv) as [items|]; simpl in E; [|discriminate].
      destruct (load_tasks items _) as [[d|]|] eqn:El; simpl in E;
        try discriminate.
      destruct (as_int n); [|discriminate].
      injection E as <-. simpl.
      eapply load_tasks_well_keyed; [exact El | exact Hfresh].
    + discriminate.
    + destruct (caught e); [now intros [= <-] | discriminate].
Qed.

Lemma reachable_run (cs : list call) (w : World) :
  reachable w -> reachable (run cs w).
Proof.
  revert w. induction cs as [|c r IH]; simpl; intros w H; [assumption|].
  apply IH. now constructor.
Qed.

Lemma reachable_well_keyed (w : World) :
  reachable w -> well_keyed (_tasks (store w)).
Proof.
  induction 1 as [f self H|c w _ IH].
  - exact (init_well_keyed f self H).
  - now apply step_well_keyed.
Qed.

Lemma Priority_of_value (p : Priority) :
  Priority_of (JStr (Priority_value p)) = Ok p.
Proof. now destruct p. Qed.

Lemma Status_of_value (s : Status) :
  Status_of (JStr (Status_value s)) = Ok s.
Proof. now destruct s. Qed.

Lemma as_str_list_map (l : list string) :
  as_str_list (map JStr l) = Some l.
Proof. induction l as [|x r IH]; simpl; [reflexivity | now rewrite IH]. Qed.

Lemma store_all_values (d acc : dict Task) :
  well_keyed d ->
  (forall k, In k (dict_keys d) -> ~ In k (dict_keys acc)) ->
  store_all (dict_values d) acc = acc ++ d.
Proof.
  revert acc. induction d as [|[k task] r IH]; intros acc [Hnd Hk] Hdis.
  - simpl. now rewrite app_nil_r.
  - simpl. inversion Hnd as [|? ? Hnin Hnd']; subst.
    inversion Hk as [|? ? Hkt Hk']; subst. simpl in Hkt. subst k.
    rewrite dict_set_new by (apply Hdis; now left).
    rewrite IH.
    + now rewrite <- app_assoc.
    + now split.
    + intros k Hin. unfold dict_keys. rewrite map_app, in_app_iff. simpl.
      intros [Hacc|[<-|[]]].
      * apply (Hdis k); [now right | exact Hacc].
      * contradiction.
Qed.

Section WithLaws.

Hypothesis laws : DateTimeLaws DT.

Lemma parse_datetime_isoformat (d : datetime) :
  parse_datetime (JStr (isoformat d)) = Ok d.
Proof. simpl. now rewrite (fromisoformat_isoformat DT laws). Qed.

Lemma truthy_isoformat (d : datetime) :
  truthy (JStr (isoformat d)) = true.
Proof.
  simpl. destruct (String.eqb_spec (isoformat d) "") as [E|_];
    [|reflexivity].
  now apply (isoformat_not_empty DT laws) in E.
Qed.

Lemma load_task_task_record (task : Task) :
  exists raw,
    load_task (task_record task) = Ok raw
    /\ raw_id raw = JInt (id task)
    /\ typed_task raw = Some task.
Proof.
  destruct task as [i t d p s du c u tg].
  unfold load_task, task_record. cbn -[Priority_of Status_of parse_datetime truthy].
  rewrite Priority_of_value, Status_of_value. cbn -[parse_datetime truthy].
  rewrite !parse_datetime_isoformat.
  destruct du as [due|].
  - rewrite truthy_isoformat, parse_datetime_isoformat. cbn.
    eexists. split; [reflexivity|]. split; [reflexivity|].
    unfold typed_task. cbn. now rewrite as_str_list_map.
  - cbn. eexists. split; [reflexivity|]. split; [reflexivity|].
    unfold typed_task. cbn. now rewrite as_str_list_map.
Qed.

Lemma load_tasks_task_records (tasks : list Task) (acc : dict Task) :
  load_tasks (map task_record tasks) (Some acc)
  = Ok (Some (store_all tasks acc)).
Proof.
  revert acc. induction tasks as [|task r IH]; intros acc; [reflexivity|].
  simpl map. cbn [load_tasks].
  destruct (load_task_task_record task) as [raw [Hraw [Hid Htyped]]].
  rewrite Hraw. cbn [bind]. rewrite Hid, Htyped. cbn [hashable]. apply IH.
Qed.

Lemma load_data_save_data (self : TaskStore) :
  well_keyed (_tasks self) ->
  load_data (save_data self) fresh = Ok (Some self).
Proof.
  intros H. unfold load_data, save_data.
  cbn -[load_tasks]. rewrite load_tasks_task_records. cbn.
  rewrite store_all_values by (assumption || (intros k _ [])).
  now destruct self.
Qed.

(** C2: for every store reached from a constructed store by the public
    operations, constructing a store from the file that
    [_save_to_file] writes gives the same store: the same collection
    (ids, all fields, order) and the same counter. *)
Theorem save_then_load_is_identity (w : World) :
  reachable w ->
  __init__ (disk (_save_to_file (store w))) = Constructed (store w).
Proof.
  intros H. apply reachable_well_keyed in H.
  unfold __init__, _save_to_file, _load_from_file. cbn [disk].
  rewrite json_load_save_data. cbn [bind].
  now rewrite load_data_save_data.
Qed.

End WithLaws.

End Persistence.

(** ** An update without fields *)

Section Refresh.

Context {DT : DateTime} {JD : JsonDecoder}.

Lemma dict_set_stored {V : Type} (d : dict V) (k : Z) (v v' : V) :
  dict_get k d = Some v ->
  exists pre post,
    d = pre ++ (k, v) :: post
    /\ dict_set k v' d = pre ++ (k, v') :: post.
Proof.
  induction d as [|[k0 v0] r IH]; simpl; [discriminate|].
  destruct (Z.eqb_spec k k0) as [<-|Hne].
  - intros [= <-]. now exists [], r.
  - intros H. destruct (IH H) as (pre & post & -> & ->).
    now exists ((k0, v0) :: pre), post.
Qed.

(** C10: [update_task] on a stored id with no field and no clear flag
    returns the task with [updated_at] set to the clock reading and
    every other field as it was, and stores it under its id.  The
    collection is as before but for that task, in the same order, and
    the file is rewritten with the counter and one record per task of
    the collection, in that order, the record of the updated task
    carrying the new [updated_at]; a store constructed from that file
    is the store in memory. *)
Theorem update_without_fields_refreshes (w : World) (task_id : Z)
    (now : datetime) (task : Task) :
  get_task task_id (store w) = Some task ->
  let r := update_task task_id None None None None None false None now w in
  let task' := {| id := id task;
                  title := title task;
                  description := description task;
                  priority := priority task;
                  status := status task;
                  due_date := due_date task;
                  created_at := created_at task;
                  updated_at := now;
                  tags := tags task |} in
  let record := fun t : Task =>
    JObj [ ("id", JInt (id t));
           ("title", JStr (title t));
           ("description", JStr (description t));
           ("priority", JStr match priority t with
                             | LOW => "low"
                             | MEDIUM => "medium"
                             | HIGH => "high"
                             end);
           ("status", JStr match status t with
                           | PENDING => "pending"
                           | IN_PROGRESS => "in_progress"
                           | COMPLETED => "completed"
                           end);
           ("due_date", match due_date t with
                        | Some d => JStr (isoformat d)
                        | None => JNull
                        end);
           ("created_at", JStr (isoformat (created_at t)));
           ("updated_at", JStr (isoformat (updated_at t)));
           ("tags", JArr (map JStr (tags t))) ] in
  fst r = Some task'
  /\ get_task task_id (store (snd r)) = Some task'
  /\ (exists before after : list Task,
        get_all_tasks (store w) = before ++ task :: after
        /\ get_all_tasks (store (snd r)) = before ++ task' :: after
        /\ disk (snd r)
           = Document
               (JObj [ ("next_id", JInt (_next_id (store w)));
                       ("tasks",
                        JArr (map record before
                              ++ record task' :: map record after)) ]))
  /\ (DateTimeLaws DT -> reachable w ->
      __init__ (disk (snd r)) = Constructed (store (snd r))).
Proof.
  intros H r task' record. unfold get_task in H.
  assert (R : forall t, task_record t = record t).
  { intros t. unfold task_record, record.
    now destruct (priority t), (status t). }
  assert (E : r = (Some task',
                   _save_to_file
                     {| _tasks := dict_set task_id task' (_tasks (store w));
                        _next_id := _next_id (store w) |})).
  { unfold r, update_task. rewrite H. unfold task'. now destruct task. }
  rewrite E. cbn [fst snd store disk _save_to_file _tasks _next_id].
  split; [reflexivity|].
  split; [apply dict_get_set_same|].
  split.
  - destruct (dict_set_stored (_tasks (store w)) task_id task task' H)
      as (pre & post & Ew & Er).
    exists (dict_values pre), (dict_values post).
    unfold get_all_tasks, save_data. cbn [_tasks _next_id].
    rewrite Er, Ew. unfold dict_values. rewrite !map_app. cbn [map snd].
    split; [reflexivity|]. split; [reflexivity|].
    now rewrite R, !(map_ext task_record record R).
  - intros laws Hw. apply reachable_well_keyed in Hw.
    unfold __init__, _load_from_file.
    rewrite json_load_save_data. cbn [bind].
    rewrite (load_data_save_data laws); [reflexivity|].
    cbn [_tasks].
    replace task_id with (id task').
    + now apply well_keyed_set.
    + destruct Hw as [_ Hk]. apply dict_get_in in H.
      unfold keyed_by_id in Hk. rewrite Forall_forall in Hk.
      exact (eq_sym (Hk _ H)).
Qed.

End Refresh.

(** ** The offset-naive implementation meets the contract *)

Module NaiveFacts.

Import Naive.

Lemma digit_val_digit (z : Z) :
  0 <= z < 10 -> digit_val (digit z) = Some z.
Proof.
  intros H.
  assert (E : z = 0 \/ z = 1 \/ z = 2 \/ z = 3 \/ z = 4 \/ z = 5
              \/ z = 6 \/ z = 7 \/ z = 8 \/ z = 9) by lia.
  repeat (destruct E as [->|E]; [reflexivity|]). now subst.
Qed.

Lemma number_0 (acc : Z) (r : string) : number 0 acc r = Some (acc, r).
Proof. reflexivity. Qed.

Lemma number_digit (k : nat) (acc z : Z) (r : string) :
  0 <= z < 10 ->
  number (S k) acc (String (digit z) r) = number k (acc * 10 + z) r.
Proof. intros H. simpl. now rewrite digit_val_digit. Qed.

Lemma number_pad2 (k : nat) (acc n : Z) (r : string) :
  0 <= n < 100 ->
  number (S (S k)) acc (pad2 n r) = number k (acc * 100 + n) r.
Proof.
  intros H. unfold pad2.
  rewrite !number_digit by (Z.div_mod_to_equations; lia).
  f_equal. Z.div_mod_to_equations; lia.
Qed.

Lemma number_pad4 (k : nat) (acc n : Z) (r : string) :
  0 <= n < 10000 ->
  number (S (S (S (S k)))) acc (pad4 n r) = number k (acc * 10000 + n) r.
Proof.
  intros H. unfold pad4.
  rewrite !number_pad2 by (Z.div_mod_to_equations; lia).
  f_equal. Z.div_mod_to_equations; lia.
Qed.

Lemma parse_fraction_isoformat (f : fields) :
  0 <= microsecond f < 1000000 ->
  parse_fraction (fraction_isoformat f) = Some (microsecond f).
Proof.
  intros H. unfold fraction_isoformat.
  destruct (Z.eqb_spec (microsecond f) 0) as [->|Hne]; [reflexivity|].
  set (us := microsecond f) in *.
  unfold parse_fraction. rewrite Ascii.eqb_refl.
  unfold pad6, pad4.
  rewrite number_pad2 by (Z.div_mod_to_equations; lia).
  unfold pad2 at 1.
  rewrite number_digit by (Z.div_mod_to_equations; lia).
  rewrite number_0. cbv beta match.
  rewrite number_digit by (Z.div_mod_to_equations; lia).
  rewrite number_pad2 by (Z.div_mod_to_equations; lia).
  rewrite number_0. cbv beta match. f_equal. Z.div_mod_to_equations; lia.
Qed.

Lemma parse_time_isoformat (f : fields) :
  0 <= hour f < 24 -> 0 <= minute f < 60 -> 0 <= second f < 60 ->
  0 <= microsecond f < 1000000 ->
  parse_time (time_isoformat f)
  = Some (hour f, minute f, second f, microsecond f).
Proof.
  intros Hh Hm Hs Hu. unfold parse_time, time_isoformat.
  rewrite number_pad2, number_0 by lia. cbv beta match delta [expect].
  rewrite Ascii.eqb_refl.
  rewrite number_pad2, number_0 by lia. cbv beta match delta [expect].
  rewrite Ascii.eqb_refl.
  rewrite number_pad2, number_0 by lia. cbv beta match.
  rewrite parse_fraction_isoformat by assumption.
  repeat f_equal; lia.
Qed.

Lemma days_in_month_le (y m : Z) : days_in_month y m <= 31.
Proof.
  unfold days_in_month.
  repeat match goal with |- context [if ?b then _ else _] => destruct b end;
    lia.
Qed.

Lemma valid_bounds (f : fields) :
  valid f = true ->
  1 <= year f <= 9999 /\ 1 <= month f <= 12 /\ 1 <= day f <= 31
  /\ 0 <= hour f < 24 /\ 0 <= minute f < 60 /\ 0 <= second f < 60
  /\ 0 <= microsecond f < 1000000.
Proof.
  unfold valid. rewrite !andb_true_iff, !Z.leb_le, !Z.ltb_lt.
  pose proof (days_in_month_le (year f) (month f)). lia.
Qed.

Lemma parse_fields_isoformat (f : fields) :
  valid f = true -> parse_fields (fields_isoformat f) = Some f.
Proof.
  intros H. apply valid_bounds in H.
  destruct H as (Hy & Hm & Hd & Hh & Hmi & Hs & Hu).
  unfold parse_fields, fields_isoformat.
  rewrite number_pad4, number_0 by lia. cbv beta match delta [expect].
  rewrite Ascii.eqb_refl.
  rewrite number_pad2, number_0 by lia. cbv beta match delta [expect].
  rewrite Ascii.eqb_refl.
  rewrite number_pad2, number_0 by lia. cbv beta match.
  rewrite parse_time_isoformat by assumption.
  destruct f; reflexivity.
Qed.

Lemma make_valid (d : t) : make (proj1_sig d) = Some d.
Proof.
  destruct d as [f H]. unfold make. simpl.
  generalize (eq_refl (valid f)).
  generalize (valid f) at 2 3.
  intros b. destruct b; intros e.
  - replace e with H; [reflexivity | apply UIP_dec, bool_dec].
  - congruence.
Qed.

Lemma t_fromisoformat_isoformat (d : t) :
  t_fromisoformat (t_isoformat d) = Some d.
Proof.
  unfold t_fromisoformat, t_isoformat.
  rewrite parse_fields_isoformat by exact (proj2_sig d).
  apply make_valid.
Qed.

End NaiveFacts.

Lemma NaiveDateTime_laws : DateTimeLaws NaiveDateTime.
Proof.
  split.
  - exact NaiveFacts.t_fromisoformat_isoformat.
  - intros d. simpl. unfold Naive.t_isoformat, Naive.fields_isoformat,
      Naive.pad4, Naive.pad2. discriminate.
Qed.

(** ** Recovery from an unreadable file *)

Section Recovery.

Context {DT : DateTime} {JD : JsonDecoder}.









End Recovery.

(** ** The queries of the store *)

Lemma date_leb_spec (a b : date) :
  date_leb a b = true <->
  dyear a < dyear b
  \/ (dyear a = dyear b
      /\ (dmonth a < dmonth b \/ (dmonth a = dmonth b /\ dday a <= dday b))).
Proof.
  unfold date_leb.
  now rewrite !orb_true_iff, !andb_true_iff, orb_true_iff, andb_true_iff,
    !Z.ltb_lt, !Z.eqb_eq, Z.leb_le.
Qed.

Lemma date_ltb_leb_trans (a b c : date) :
  date_ltb a b = true -> date_leb b c = true -> date_ltb a c = true.
Proof.
  rewrite !date_ltb_spec, date_leb_spec. lia.
Qed.

Lemma date_leb_ltb_false (a b : date) :
  date_leb a b = true -> date_ltb b a = false.
Proof.
  intros H. destruct (date_ltb b a) eqn:E; [|reflexivity].
  apply date_ltb_spec in E. apply date_leb_spec in H. lia.
Qed.

Lemma Priority_eqb_eq (a b : Priority) : Priority_eqb a b = true <-> a = b.
Proof. destruct a, b; simpl; split; congruence. Qed.

Section Counting.

Context {A : Type}.
Implicit Types (p q r : A -> bool) (l : list A).

Lemma len_nonneg l : 0 <= len l.
Proof. unfold len. lia. Qed.

Lemma len_filter_le p l : len (filter p l) <= len l.
Proof.
  unfold len. induction l as [|x l IH]; [simpl; lia|].
  cbn [filter]. destruct (p x); cbn [List.length]; lia.
Qed.

Lemma len_filter_mono p q l :
  (forall x, p x = true -> q x = true) ->
  len (filter p l) <= len (filter q l).
Proof.
  intros H. unfold len. induction l as [|x l IH]; [simpl; lia|].
  cbn [filter]. destruct (p x) eqn:E.
  - rewrite (H x E). cbn [List.length]. lia.
  - destruct (q x); cbn [List.length]; lia.
Qed.

Lemma len_three_way p q r l :
  exactly_one p q r ->
  len (filter p l) + len (filter q l) + len (filter r l) = len l.
Proof.
  intros H. unfold len. induction l as [|x l IH]; [reflexivity|].
  cbn [filter].
  destruct (H x) as [(-> & -> & ->)|[(-> & -> & ->)|(-> & -> & ->)]];
    cbn [List.length]; lia.
Qed.

Lemma permutation_three_way p q r l :
  exactly_one p q r ->
  Permutation l (filter p l ++ filter q l ++ filter r l).
Proof.
  intros H. induction l as [|x l IH]; simpl; [constructor|].
  destruct (H x) as [(-> & -> & ->)|[(-> & -> & ->)|(-> & -> & ->)]];
    simpl.
  - now constructor.
  - rewrite IH at 1. apply Permutation_middle.
  - rewrite IH at 1. rewrite app_assoc. rewrite Permutation_middle.
    now rewrite <- app_assoc.
Qed.

End Counting.

Lemma prefix_refl (s : string) : String.prefix s s = true.
Proof.
  induction s as [|c s IH]; simpl; [reflexivity|].
  destruct (ascii_dec c c); [exact IH | contradiction].
Qed.

Lemma contains_refl (s : string) : contains s s = true.
Proof. destruct s; cbn [contains]; now rewrite prefix_refl. Qed.

Lemma contains_empty (s : string) : contains "" s = true.
Proof. destruct s; reflexivity. Qed.

Section QueryFacts.

Context {DT : DateTime} {TX : Text} {TD : TimeDelta}.

Lemma status_exactly_one :
  exactly_one (has_status PENDING) (has_status IN_PROGRESS)
    (has_status COMPLETED).
Proof. intros x. unfold has_status. destruct (status x); simpl; tauto. Qed.

Lemma priority_exactly_one :
  exactly_one (has_priority HIGH) (has_priority MEDIUM) (has_priority LOW).
Proof. intros x. unfold has_priority. destruct (priority x); simpl; tauto. Qed.

(** X1: in the statistics, the three status counts add up to the total,
    so do the three priority counts, the total is [count()], and the
    overdue count is at most the number of tasks that are pending or
    in progress. *)
Theorem stats_counts_add_up (today : date) (self : TaskStore) :
  let s := get_stats today self in
  pending (by_status s) + in_progress (by_status s) + completed (by_status s)
  = total s
  /\ high (by_priority s) + medium (by_priority s) + low (by_priority s)
     = total s
  /\ total s = count self
  /\ 0 <= overdue s <= pending (by_status s) + in_progress (by_status s).
Proof.
  cbn zeta. unfold get_stats. cbn [total overdue by_status by_priority
    pending in_progress completed high medium low].
  pose proof (len_three_way _ _ _ (get_all_tasks self) status_exactly_one)
    as Hs.
  pose proof (len_three_way _ _ _ (get_all_tasks self) priority_exactly_one)
    as Hp.
  split; [exact Hs|]. split; [exact Hp|].
  split.
  { unfold count, dict_len, len, get_all_tasks, dict_values.
    now rewrite length_map. }
  split; [apply len_nonneg|].
  unfold get_overdue_tasks, get_all_tasks in *.
  set (l := dict_values (_tasks self)) in *.
  assert (Hov : len (filter (is_overdue today) l)
                <= len (filter (fun t => negb (has_status COMPLETED t)) l)).
  { apply len_filter_mono. intros x. unfold is_overdue, has_status.
    destruct (due_date x); [|discriminate].
    intros H. now apply andb_true_iff in H. }
  assert (Hn : len (filter (fun t => negb (has_status COMPLETED t)) l)
               + len (filter (has_status COMPLETED) l) = len l).
  { clear. unfold len. induction l as [|x l IH]; [reflexivity|].
    cbn [filter]. destruct (has_status COMPLETED x);
      cbn [negb List.length]; lia. }
  lia.
Qed.

(** X2: [get_tasks_by_status] lists exactly the stored tasks with the
    given status, and the lists of the three statuses together are the
    whole collection, each task once. *)
Theorem by_status_splits_the_collection (self : TaskStore) :
  (forall s task,
     In task (get_tasks_by_status s self) <->
     In task (get_all_tasks self) /\ status task = s)
  /\ Permutation (get_all_tasks self)
       (get_tasks_by_status PENDING self
        ++ get_tasks_by_status IN_PROGRESS self
        ++ get_tasks_by_status COMPLETED self).
Proof.
  split.
  - intros s task. unfold get_tasks_by_status, get_all_tasks, has_status.
    now rewrite filter_In, Status_eqb_eq.
  - apply permutation_three_way, status_exactly_one.
Qed.

(** X3: [get_tasks_by_priority] lists exactly the stored tasks with the
    given priority, and the lists of the three priorities together are
    the whole collection, each task once. *)
Theorem by_priority_splits_the_collection (self : TaskStore) :
  (forall p task,
     In task (get_tasks_by_priority p self) <->
     In task (get_all_tasks self) /\ priority task = p)
  /\ Permutation (get_all_tasks self)
       (get_tasks_by_priority HIGH self
        ++ get_tasks_by_priority MEDIUM self
        ++ get_tasks_by_priority LOW self).
Proof.
  split.
  - intros p task. unfold get_tasks_by_priority, get_all_tasks, has_priority.
    now rewrite filter_In, Priority_eqb_eq.
  - apply permutation_three_way, priority_exactly_one.
Qed.

Lemma filter_all {A : Type} (p : A -> bool) (l : list A) :
  (forall x, In x l -> p x = true) -> filter p l = l.
Proof.
  induction l as [|x l IH]; simpl; intros H; [reflexivity|].
  rewrite (H x) by now left. f_equal. apply IH. intros y Hy. apply H.
  now right.
Qed.

(** X4: when the lower case of the empty string is the empty string,
    [search_tasks] with the empty query returns the whole collection,
    in its order. *)
Theorem search_empty_query_returns_all (self : TaskStore) :
  lower "" = "" ->
  search_tasks "" self = get_all_tasks self.
Proof.
  intros H. unfold search_tasks, get_all_tasks. rewrite H.
  apply filter_all. intros x _. unfold matches.
  now rewrite contains_empty.
Qed.

(** X5: [search_tasks] finds a stored task by a query whose lower case
    is the lower case of its title or of its description, and two
    queries with the same lower case give the same result. *)
Theorem search_is_case_insensitive (self : TaskStore) (query : string) :
  (forall task,
     In task (get_all_tasks self) ->
     lower query = lower (title task)
     \/ lower query = lower (description task) ->
     In task (search_tasks query self))
  /\ (forall query',
        lower query' = lower query ->
        search_tasks query' self = search_tasks query self).
Proof.
  split.
  - intros task Hin H. unfold search_tasks. apply filter_In.
    split; [exact Hin|]. unfold matches.
    destruct H as [-> | ->]; rewrite contains_refl; [reflexivity|].
    apply orb_true_r.
  - intros query' H. unfold search_tasks. now rewrite H.
Qed.

(** X6: a task listed by [get_tasks_due_this_week] is stored, has a due
    date, is not COMPLETED, and is not listed by [get_overdue_tasks]
    for the same day. *)
Theorem due_this_week_is_not_overdue (today : date) (self : TaskStore)
    (week : list Task) (task : Task) :
  get_tasks_due_this_week today self = Some week ->
  In task week ->
  In task (get_all_tasks self)
  /\ due_date task <> None
  /\ status task <> COMPLETED
  /\ ~ In task (get_overdue_tasks today self).
Proof.
  unfold get_tasks_due_this_week. destruct (plus_days today 7) as [week_end|];
    [|discriminate].
  intros [= <-] Hin. apply filter_In in Hin. destruct Hin as [Hin Hdue].
  unfold is_due_between in Hdue.
  destruct (due_date task) as [d|] eqn:Ed; [|discriminate].
  apply andb_true_iff in Hdue. destruct Hdue as [Hdue Hst].
  apply andb_true_iff in Hdue. destruct Hdue as [Hlo _].
  repeat split.
  - exact Hin.
  - discriminate.
  - intros E. rewrite E in Hst. discriminate.
  - unfold get_overdue_tasks. rewrite filter_In. intros [_ Hov].
    unfold is_overdue in Hov. rewrite Ed in Hov.
    apply andb_true_iff in Hov. destruct Hov as [Hlt _].
    apply date_leb_ltb_false in Hlo. congruence.
Qed.

(** X7: a task that is overdue on one day is overdue on every later
    day, as long as the store does not change. *)
Theorem overdue_stays_overdue (today later : date) (self : TaskStore)
    (task : Task) :
  date_leb today later = true ->
  In task (get_overdue_tasks today self) ->
  In task (get_overdue_tasks later self).
Proof.
  unfold get_overdue_tasks. rewrite !filter_In. intros Hle [Hin Hov].
  split; [exact Hin|]. unfold is_overdue in *.
  destruct (due_date task) as [d|]; [|discriminate].
  apply andb_true_iff in Hov. destruct Hov as [Hlt Hst].
  now rewrite (date_ltb_leb_trans _ _ _ Hlt Hle), Hst.
Qed.

End QueryFacts.

(** ** More on dicts *)

Section DictOrder.

Context {V : Type}.
Implicit Types (d : dict V) (k : Z) (v : V).

Lemma dict_keys_set_in d k v :
  In k (dict_keys d) -> dict_keys (dict_set k v d) = dict_keys d.
Proof.
  induction d as [|[k0 v0] r IH]; simpl; [tauto|].
  destruct (Z.eqb_spec k k0) as [->|Hk]; simpl; [reflexivity|].
  intros [E|H]; [congruence|]. f_equal. now apply IH.
Qed.

Lemma dict_set_length_in d k v :
  In k (dict_keys d) -> List.length (dict_set k v d) = List.length d.
Proof.
  induction d as [|[k0 v0] r IH]; simpl; [tauto|].
  destruct (Z.eqb_spec k k0) as [->|Hk]; simpl; [reflexivity|].
  intros [E|H]; [congruence|]. f_equal. now apply IH.
Qed.

Lemma dict_key_of_entry d k v : In (k, v) d -> In k (dict_keys d).
Proof. intros H. exact (in_map fst _ _ H). Qed.

Lemma dict_set_in d k v k' v' :
  NoDup (dict_keys d) ->
  In (k', v') (dict_set k v d) ->
  (k' = k /\ v' = v) \/ (k' <> k /\ In (k', v') d).
Proof.
  induction d as [|[k0 v0] r IH]; simpl; intros Hnd.
  - intros [[= <- <-]|[]]. now left.
  - inversion Hnd as [|? ? Hnin Hnd']; subst.
    destruct (Z.eqb_spec k k0) as [->|Hk]; simpl.
    + intros [[= <- <-]|H]; [now left|].
      right. split; [|now right].
      intros ->. apply Hnin. eapply dict_key_of_entry, H.
    + intros [[= <- <-]|H].
      * right. split; [congruence | now left].
      * destruct (IH Hnd' H) as [?|[? ?]]; [now left|].
        right. split; [assumption | now right].
Qed.

Lemma dict_get_of_entry d k v :
  NoDup (dict_keys d) -> In (k, v) d -> dict_get k d = Some v.
Proof.
  induction d as [|[k0 v0] r IH]; simpl; intros Hnd; [tauto|].
  inversion Hnd as [|? ? Hnin Hnd']; subst.
  intros [[= -> ->]|H].
  - now rewrite Z.eqb_refl.
  - destruct (Z.eqb_spec k k0) as [->|Hk].
    + exfalso. apply Hnin. eapply dict_key_of_entry, H.
    + now apply IH.
Qed.




Lemma dict_keys_del_sorted d k :
  StronglySorted Z.lt (dict_keys d) ->
  StronglySorted Z.lt (dict_keys (dict_del k d)).
Proof.
  induction d as [|[k0 v0] r IH]; simpl; intros H; [constructor|].
  inversion H as [|? ? Hs Hall]; subst.
  destruct (Z.eqb_spec k k0) as [->|Hk]; simpl; [assumption|].
  constructor; [now apply IH|].
  rewrite Forall_forall in *. intros x Hx. apply Hall.
  eapply dict_keys_del, Hx.
Qed.

End DictOrder.

Lemma sorted_snoc (l : list Z) (k : Z) :
  StronglySorted Z.lt l -> (forall x, In x l -> x < k) ->
  StronglySorted Z.lt (l ++ [k]).
Proof.
  induction l as [|a l IH]; simpl; intros Hs Hlt.
  - repeat constructor.
  - inversion Hs as [|? ? Hs' Hall]; subst. constructor.
    + apply IH; [assumption|]. intros x Hx. apply Hlt. now right.
    + rewrite Forall_forall in *. intros x Hx.
      apply in_app_iff in Hx. destruct Hx as [Hx|[<-|[]]].
      * now apply Hall.
      * apply Hlt. now left.
Qed.

Lemma sorted_nodup (l : list Z) : StronglySorted Z.lt l -> NoDup l.
Proof.
  induction 1 as [|a l _ IH Hall]; constructor; [|assumption].
  intros Hin. rewrite Forall_forall in Hall. specialize (Hall a Hin). lia.
Qed.

(** ** The enumerations *)

(** X17: [Priority(v)] and [Status(v)] return a member exactly when [v]
    is the string that is the member's value, and raise [ValueError]
    for every other value. *)
Theorem enum_values_decode_exactly (v : json) :
  (forall p, Priority_of v = Ok p <-> v = JStr (Priority_value p))
  /\ (forall s, Status_of v = Ok s <-> v = JStr (Status_value s))
  /\ (forall e, Priority_of v = Raise e -> e = ValueError)
  /\ (forall e, Status_of v = Raise e -> e = ValueError).
Proof.
  repeat split.
  - destruct v as [| | |s| |]; simpl; try discriminate.
    destruct (String.eqb_spec s "low") as [->|?];
      [intros [= <-]; reflexivity|].
    destruct (String.eqb_spec s "medium") as [->|?];
      [intros [= <-]; reflexivity|].
    destruct (String.eqb_spec s "high") as [->|?];
      [intros [= <-]; reflexivity | discriminate].
  - intros ->. now destruct p.
  - destruct v as [| | |x| |]; simpl; try discriminate.
    destruct (String.eqb_spec x "pending") as [->|?];
      [intros [= <-]; reflexivity|].
    destruct (String.eqb_spec x "in_progress") as [->|?];
      [intros [= <-]; reflexivity|].
    destruct (String.eqb_spec x "completed") as [->|?];
      [intros [= <-]; reflexivity | discriminate].
  - intros ->. now destruct s.
  - intros e. destruct v as [| | |s| |]; simpl; try (now intros [= <-]).
    destruct (String.eqb s "low"); [discriminate|].
    destruct (String.eqb s "medium"); [discriminate|].
    destruct (String.eqb s "high"); [discriminate | now intros [= <-]].
  - intros e. destruct v as [| | |s| |]; simpl; try (now intros [= <-]).
    destruct (String.eqb s "pending"); [discriminate|].
    destruct (String.eqb s "in_progress"); [discriminate|].
    destruct (String.eqb s "completed"); [discriminate | now intros [= <-]].
Qed.

(** ** How the operations change the collection *)

Section MutationFacts.

Context {DT : DateTime} {JD : JsonDecoder} {TX : Text} {TD : TimeDelta}.

Lemma keyed_values_ids (d : dict Task) :
  keyed_by_id d -> map id (dict_values d) = dict_keys d.
Proof.
  induction 1 as [|[k t] r Hk _ IH]; simpl; [reflexivity|].
  simpl in Hk. now rewrite IH, Hk.
Qed.

Lemma value_has_entry (d : dict Task) (task : Task) :
  In task (dict_values d) -> exists k, In (k, task) d.
Proof.
  intros H. apply in_map_iff in H. destruct H as [[k t] [E H]].
  simpl in E. subst t. now exists k.
Qed.

Lemma ids_below_counter_new_key (self : TaskStore) :
  ids_below_counter self -> ~ In (_next_id self) (dict_keys (_tasks self)).
Proof. intros H Hin. apply H in Hin. lia. Qed.

(** X10: [clear_all] returns the number of tasks there were and leaves
    the collection empty with the counter where it was; a store
    constructed from the file it wrote is that empty store with that
    counter. *)
Theorem clear_all_empties_and_keeps_the_counter (w : World) :
  let r := clear_all w in
  fst r = count (store w)
  /\ get_all_tasks (store (snd r)) = []
  /\ _next_id (store (snd r)) = _next_id (store w)
  /\ __init__ (disk (snd r))
     = Constructed {| _tasks := []; _next_id := _next_id (store w) |}.
Proof.
  repeat split. unfold clear_all, _save_to_file, __init__, _load_from_file.
  cbn [snd disk]. now rewrite json_load_save_data.
Qed.

(** X11: on a store whose ids are all below the counter, [add_task]
    puts the new task at the end of the listing, the count grows by
    one, and every other id looks up what it did. *)
Theorem add_task_appends (w : World) (new_title new_description : string)
    (new_priority : Priority) (new_tags : option (list string))
    (due : option datetime) (now_created now_updated : datetime) :
  ids_below_counter (store w) ->
  let r := add_task new_title new_description new_priority new_tags due
             now_created now_updated w in
  get_all_tasks (store (snd r)) = get_all_tasks (store w) ++ [fst r]
  /\ count (store (snd r)) = count (store w) + 1
  /\ (forall k, k <> _next_id (store w) ->
        get_task k (store (snd r)) = get_task k (store w)).
Proof.
  intros H. apply ids_below_counter_new_key in H. cbn zeta.
  unfold add_task, get_all_tasks, count, dict_len, get_task. cbn [fst snd
    store _save_to_file _tasks].
  rewrite dict_set_new by exact H. repeat split.
  - unfold dict_values. now rewrite map_app.
  - rewrite length_app. cbn [List.length]. lia.
  - intros k Hk. rewrite <- (dict_set_new _ _ _ H).
    now apply dict_get_set_other.
Qed.

(** X12: when the counter is the id of a stored task, [add_task] puts
    the new task in its place: the keys and the count stay as they
    were, the id looks up the new task, and in a collection with
    distinct keys the listing has no other task under that id. *)
Theorem add_task_replaces_on_id_collision (w : World)
    (new_title new_description : string) (new_priority : Priority)
    (new_tags : option (list string)) (due : option datetime)
    (now_created now_updated : datetime) (old : Task) :
  get_task (_next_id (store w)) (store w) = Some old ->
  let r := add_task new_title new_description new_priority new_tags due
             now_created now_updated w in
  dict_keys (_tasks (store (snd r))) = dict_keys (_tasks (store w))
  /\ count (store (snd r)) = count (store w)
  /\ get_task (_next_id (store w)) (store (snd r)) = Some (fst r)
  /\ (well_keyed (_tasks (store w)) ->
      forall task, In task (get_all_tasks (store (snd r))) ->
                   id task = _next_id (store w) -> task = fst r).
Proof.
  intros Hold. cbn zeta.
  assert (Hin : In (_next_id (store w)) (dict_keys (_tasks (store w)))).
  { destruct (in_dec Z.eq_dec (_next_id (store w))
                (dict_keys (_tasks (store w)))) as [?|n]; [assumption|].
    apply dict_get_none_iff in n. unfold get_task in Hold. congruence. }
  unfold add_task, get_all_tasks, count, dict_len, get_task. cbn [fst snd
    store _save_to_file _tasks].
  split; [now apply dict_keys_set_in|].
  split.
  { now rewrite dict_set_length_in. }
  split; [apply dict_get_set_same|].
  intros [Hnd Hk] task Htask Hid.
  apply value_has_entry in Htask. destruct Htask as [k Hentry].
  apply (dict_set_in _ _ _ _ _ Hnd) in Hentry.
  destruct Hentry as [[_ ->]|[Hne Hentry]]; [reflexivity|].
  unfold keyed_by_id in Hk. rewrite Forall_forall in Hk.
  specialize (Hk _ Hentry). simpl in Hk. congruence.
Qed.



(** X15: whatever the arguments, [update_task] of a stored id returns
    the stored task, with the id and the creation time it had and
    [updated_at] set to the clock reading; the keys of the collection
    and their order, the counter and every other task stay as they
    were. *)
Theorem update_task_keeps_identity (w : World) (task_id : Z)
    (new_title new_description : option string)
    (new_priority : option Priority) (new_status : option Status)
    (due : option datetime) (clear : bool)
    (new_tags : option (list string)) (now : datetime) (task : Task) :
  get_task task_id (store w) = Some task ->
  let r := update_task task_id new_title new_description new_priority
             new_status due clear new_tags now w in
  exists task',
    fst r = Some task'
    /\ get_task task_id (store (snd r)) = Some task'
    /\ id task' = id task
    /\ created_at task' = created_at task
    /\ updated_at task' = now
    /\ dict_keys (_tasks (store (snd r))) = dict_keys (_tasks (store w))
    /\ _next_id (store (snd r)) = _next_id (store w)
    /\ (forall k, k <> task_id ->
          get_task k (store (snd r)) = get_task k (store w)).
Proof.
  intros Hget. cbn zeta. unfold get_task in *. unfold update_task.
  rewrite Hget. cbn [fst snd store _save_to_file _tasks _next_id].
  eexists. split; [reflexivity|].
  split; [apply dict_get_set_same|].
  split; [now destruct task|]. split; [now destruct task|].
  split; [now destruct task|].
  split.
  { apply dict_keys_set_in. eapply dict_key_of_entry, dict_get_in, Hget. }
  split; [reflexivity|].
  intros k Hk. now apply dict_get_set_other.
Qed.

Lemma step_keys_sorted (c : call) (w : World) :
  StronglySorted Z.lt (dict_keys (_tasks (store w))) ->
  ids_below_counter (store w) ->
  StronglySorted Z.lt (dict_keys (_tasks (store (step c w)))).
Proof.
  intros Hs Hb. destruct c; simpl.
  - rewrite dict_set_new by now apply ids_below_counter_new_key.
    unfold dict_keys. rewrite map_app. apply sorted_snoc; assumption.
  - unfold update_task.
    destruct (dict_get task_id (_tasks (store w))) eqn:E; simpl;
      [|assumption].
    rewrite dict_keys_set_in; [assumption|].
    eapply dict_key_of_entry, dict_get_in, E.
  - unfold mark_completed, update_task.
    destruct (dict_get task_id (_tasks (store w))) eqn:E; simpl;
      [|assumption].
    rewrite dict_keys_set_in; [assumption|].
    eapply dict_key_of_entry, dict_get_in, E.
  - unfold delete_task.
    destruct (dict_contains task_id (_tasks (store w))); simpl;
      [now apply dict_keys_del_sorted | assumption].
  - constructor.
Qed.

Lemma step_in_creation_order (c : call) (w : World) :
  in_creation_order (store w) -> in_creation_order (store (step c w)).
Proof.
  intros (Hs & Hb & Hk). split; [now apply step_keys_sorted|].
  split; [now apply step_ids_below_counter|].
  apply step_well_keyed. split; [now apply sorted_nodup | assumption].
Qed.

(** X13: the fresh store lists its tasks in creation order, and every
    call keeps that: after any sequence of calls on a store whose keys
    ascend, lie below the counter and are the ids of their tasks, the
    same holds, so [get_all_tasks] lists the tasks by ascending id. *)
Theorem listing_is_by_ascending_id (w : World) (cs : list call) :
  in_creation_order (store w) ->
  in_creation_order (store (run cs w))
  /\ StronglySorted Z.lt (map id (get_all_tasks (store (run cs w)))).
Proof.
  intros H.
  assert (H' : in_creation_order (store (run cs w))).
  { revert w H. induction cs as [|c r IH]; simpl; intros w H; [assumption|].
    apply IH. now apply step_in_creation_order. }
  split; [exact H'|]. destruct H' as (Hs & _ & Hk).
  unfold get_all_tasks. now rewrite keyed_values_ids.
Qed.

(** X16: in every store reached from a constructed store by the public
    operations, the listed tasks have distinct ids, an id looks up a
    task with that id, and every listed task is the one its id looks
    up. *)
Theorem stored_ids_are_unique (w : World) :
  reachable w ->
  NoDup (map id (get_all_tasks (store w)))
  /\ (forall i task, get_task i (store w) = Some task -> id task = i)
  /\ (forall task, In task (get_all_tasks (store w)) ->
                   get_task (id task) (store w) = Some task).
Proof.
  intros H. apply reachable_well_keyed in H. pose proof H as [Hnd Hk].
  split; [|split].
  - unfold get_all_tasks. now rewrite keyed_values_ids.
  - intros i task Hget. symmetry. exact (well_keyed_get _ _ _ H Hget).
  - intros task Hin. apply value_has_entry in Hin. destruct Hin as [k Hin].
    unfold keyed_by_id in Hk. rewrite Forall_forall in Hk.
    pose proof (Hk _ Hin) as E. simpl in E. subst k.
    now apply dict_get_of_entry.
Qed.

(** X8: in a collection with distinct keys where every task sits under
    its id, after [mark_completed] of a stored id that id looks up a
    COMPLETED task, which [get_tasks_by_status] lists under COMPLETED,
    and neither [get_overdue_tasks] nor [get_tasks_due_this_week] lists
    a task with that id. *)
Theorem completed_task_leaves_the_deadline_lists (w : World) (task_id : Z)
    (now : datetime) (today : date) (task : Task) :
  well_keyed (_tasks (store w)) ->
  get_task task_id (store w) = Some task ->
  let w' := snd (mark_completed task_id now w) in
  (exists task',
     get_task task_id (store w') = Some task'
     /\ status task' = COMPLETED
     /\ In task' (get_tasks_by_status COMPLETED (store w')))
  /\ (forall t, In t (get_overdue_tasks today (store w')) -> id t <> task_id)
  /\ (forall week t,
        get_tasks_due_this_week today (store w') = Some week ->
        In t week -> id t <> task_id).
Proof.
  intros Hwk Hget. cbn zeta. pose proof Hwk as [Hnd Hk].
  unfold get_task in Hget. unfold mark_completed, update_task.
  rewrite Hget. cbn [snd store _save_to_file _tasks].
  set (task' := apply_update None None None (Some COMPLETED) None false None
                  now task).
  assert (Hst : status task' = COMPLETED) by now destruct task.
  assert (Hother : forall t,
            In t (dict_values (dict_set task_id task' (_tasks (store w)))) ->
            t = task' \/ id t <> task_id).
  { intros t Ht. apply value_has_entry in Ht. destruct Ht as [k Hentry].
    apply (dict_set_in _ _ _ _ _ Hnd) in Hentry.
    destruct Hentry as [[_ ->]|[Hne Hentry]]; [now left|]. right.
    unfold keyed_by_id in Hk. rewrite Forall_forall in Hk.
    specialize (Hk _ Hentry). simpl in Hk. congruence. }
  split; [|split].
  - exists task'. unfold get_task, get_tasks_by_status. cbn [_tasks].
    split; [apply dict_get_set_same|]. split; [exact Hst|].
    apply filter_In. split.
    + apply in_map_iff. exists (task_id, task'). split; [reflexivity|].
      apply dict_get_in, dict_get_set_same.
    + unfold has_status. now rewrite Hst.
  - intros t Ht. unfold get_overdue_tasks in Ht. cbn [_tasks] in Ht.
    apply filter_In in Ht. destruct Ht as [Hin Hov].
    destruct (Hother t Hin) as [->|?]; [|assumption].
    unfold is_overdue in Hov. rewrite Hst in Hov.
    destruct (due_date task'); [|discriminate].
    now rewrite andb_false_r in Hov.
  - intros week t Hweek Ht. unfold get_tasks_due_this_week in Hweek.
    destruct (plus_days today 7) as [week_end|]; [|discriminate].
    injection Hweek as <-. cbn [_tasks] in Ht.
    apply filter_In in Ht. destruct Ht as [Hin Hdue].
    destruct (Hother t Hin) as [->|?]; [|assumption].
    unfold is_due_between in Hdue. rewrite Hst in Hdue.
    destruct (due_date task'); [|discriminate].
    now rewrite andb_false_r in Hdue.
Qed.

End MutationFacts.

(** ** The file follows the store *)

Section Durability.

Context {DT : DateTime} {JD : JsonDecoder}.

Hypothesis laws : DateTimeLaws DT.

Lemma step_saved_or_same (c : call) (w : World) :
  step c w = w \/ step c w = _save_to_file (store (step c w)).
Proof.
  destruct c; simpl.
  - now right.
  - unfold update_task. destruct (dict_get task_id (_tasks (store w)));
      [now right | now left].
  - unfold mark_completed, update_task.
    destruct (dict_get task_id (_tasks (store w))); [now right | now left].
  - unfold delete_task. destruct (dict_contains task_id (_tasks (store w)));
      [now right | now left].
  - now right.
Qed.

(** X9: at every point reached from a constructed store by the public
    operations, a store constructed from the file as it then is equals
    the store in memory: same tasks, same order, same counter. *)
Theorem restart_restores_the_store (w : World) :
  reachable w -> __init__ (disk w) = Constructed (store w).
Proof.
  intros H. induction H as [f self H|c w H IH]; [exact H|].
  assert (Hwk : well_keyed (_tasks (store (step c w)))).
  { apply reachable_well_keyed. now constructor. }
  destruct (step_saved_or_same c w) as [->| ->]; [exact IH|].
  unfold __init__, _save_to_file, _load_from_file. cbn [disk store].
  rewrite json_load_save_data. cbn [bind].
  now rewrite (load_data_save_data laws).
Qed.

Lemma find_last {A : Type} (p : A -> bool) (l : list A) (x : A) :
  find p (l ++ [x])
  = match find p l with
    | Some y => Some y
    | None => if p x then Some x else None
    end.
Proof.
  induction l as [|a l IH]; simpl; [reflexivity|].
  now destruct (p a).
Qed.

Lemma store_all_get (tasks : list Task) (acc : dict Task) (i : Z) :
  dict_get i (store_all tasks acc)
  = match find (fun task => id task =? i) (rev tasks) with
    | Some task => Some task
    | None => dict_get i acc
    end.
Proof.
  revert acc. induction tasks as [|t r IH]; intros acc; [reflexivity|].
  change (store_all (t :: r) acc) with (store_all r (dict_set (id t) t acc)).
  rewrite IH. simpl rev. rewrite find_last.
  destruct (find (fun task => id task =? i) (rev r)); [reflexivity|].
  destruct (Z.eqb_spec (id t) i) as [<-|Hne].
  - apply dict_get_set_same.
  - apply dict_get_set_other. congruence.
Qed.

Lemma store_all_well_keyed (tasks : list Task) (acc : dict Task) :
  well_keyed acc -> well_keyed (store_all tasks acc).
Proof.
  revert acc. induction tasks as [|t r IH]; intros acc H; [exact H|].
  apply IH. now apply well_keyed_set.
Qed.

(** X18: a file that holds the records of a list of tasks, written as
    [_save_to_file] writes a task, and a counter, constructs a store
    with that counter in which the keys are distinct and each id looks
    up the last task of the list with that id. *)
Theorem load_keeps_the_last_record_of_an_id (n : Z) (tasks : list Task) :
  exists self,
    __init__ (Document (JObj [("next_id", JInt n);
                              ("tasks", JArr (map task_record tasks))]))
    = Constructed self
    /\ _next_id self = n
    /\ NoDup (dict_keys (_tasks self))
    /\ forall i, get_task i self
                 = find (fun task => id task =? i) (rev tasks).
Proof.
  exists {| _tasks := store_all tasks []; _next_id := n |}.
  split.
  { unfold __init__, _load_from_file. rewrite json_load_records.
    unfold load_data.
    cbn -[load_tasks]. rewrite (load_tasks_task_records laws). reflexivity. }
  split; [reflexivity|]. split.
  { apply (store_all_well_keyed tasks []). split; constructor. }
  intros i. unfold get_task. cbn [_tasks]. rewrite store_all_get.
  now destruct (find (fun task => id task =? i) (rev tasks)).
Qed.

End Durability.

(** ** The console *)

Lemma substring_length (n : nat) (s : string) :
  String.length (String.substring 0 n s) = Nat.min n (String.length s).
Proof.
  revert s. induction n as [|n IH]; intros s.
  - now destruct s.
  - destruct s as [|c s]; simpl; [reflexivity|]. now rewrite IH.
Qed.

Lemma append_length (a b : string) :
  String.length (String.append a b) = (String.length a + String.length b)%nat.
Proof. induction a as [|c a IH]; simpl; [reflexivity | now rewrite IH]. Qed.

(** X28: the title shown in a row of [display_task_list] is never
    longer than 25 characters: a title of at most 25 characters is
    shown whole, a longer one as its first 23 characters and two dots. *)
Theorem title_display_fits_the_column (title : string) :
  (String.length (title_display title) <= 25)%nat
  /\ ((String.length title <= 25)%nat -> title_display title = title)
  /\ ((25 < String.length title)%nat ->
      title_display title = String.append (String.substring 0 23 title) ".."
      /\ String.length (title_display title) = 25%nat).
Proof.
  unfold title_display.
  destruct (Nat.ltb_spec 25 (String.length title)) as [H|H].
  - rewrite append_length, substring_length. simpl String.length.
    split; [lia|]. split; [lia|]. intros _. split; [reflexivity | lia].
  - split; [lia|]. split; [reflexivity | lia].
Qed.

Section ConsoleFacts.

Context {DT : DateTime} {TX : Text} {SP : StrpTime}.

Lemma is_empty_true (s : string) : is_empty s = true <-> s = "".
Proof. unfold is_empty. apply String.eqb_eq. Qed.

Lemma is_empty_false (s : string) : is_empty s = false <-> s <> "".
Proof. unfold is_empty. apply String.eqb_neq. Qed.

Lemma get_input_required (stdin rest : list string) (answer : string) :
  get_input true "" stdin = Some (answer, rest) ->
  answer <> ""
  /\ exists skipped line,
       stdin = skipped ++ line :: rest
       /\ Forall (fun l => strip l = "") skipped
       /\ answer = strip line.
Proof.
  induction stdin as [|line r IH]; simpl; [discriminate|].
  destruct (is_empty (strip line)) eqn:E; simpl.
  - intros H. destruct (IH H) as [Hne (skipped & l & -> & Hsk & ->)].
    split; [exact Hne|]. exists (line :: skipped), l.
    repeat split. constructor; [now apply is_empty_true | exact Hsk].
  - intros [= <- <-]. split; [now apply is_empty_false|].
    exists [], line. repeat split. constructor.
Qed.

Lemma get_input_required_eof (stdin : list string) :
  get_input true "" stdin = None <-> Forall (fun l => strip l = "") stdin.
Proof.
  induction stdin as [|line r IH]; simpl; [split; [constructor | reflexivity]|].
  destruct (is_empty (strip line)) eqn:E; simpl.
  - rewrite IH. split.
    + intros H. constructor; [now apply is_empty_true | exact H].
    + now inversion 1.
  - split; [discriminate|]. inversion 1; subst.
    apply is_empty_false in E. contradiction.
Qed.

Lemma get_input_default (required : bool) (default line : string)
    (rest : list string) :
  default <> "" ->
  get_input required default (line :: rest)
  = Some (if is_empty (strip line) then default else strip line, rest).
Proof.
  intros H. apply is_empty_false in H. simpl. rewrite H. simpl.
  now destruct (is_empty (strip line)).
Qed.

(** X19: [get_input] with [required] and no default returns the first
    line of the input that is not empty once stripped, stripped; it
    never returns the empty string, and it ends with [EOFError] exactly
    when every line left is empty once stripped. *)
Theorem get_input_required_is_never_empty (stdin : list string) :
  (forall answer rest,
     get_input true "" stdin = Some (answer, rest) ->
     answer <> ""
     /\ exists skipped line,
          stdin = skipped ++ line :: rest
          /\ Forall (fun l => strip l = "") skipped
          /\ answer = strip line)
  /\ (get_input true "" stdin = None
      <-> Forall (fun l => strip l = "") stdin).
Proof.
  split; [intros answer rest; apply get_input_required|].
  apply get_input_required_eof.
Qed.

(** X20: [get_input] with a non-empty default reads one line and
    returns the default when the line is empty once stripped, the
    stripped line otherwise: never the empty string, whether the field
    is required or not. *)
Theorem get_input_falls_back_on_default (required : bool)
    (default line : string) (rest : list string) :
  default <> "" ->
  exists answer,
    get_input required default (line :: rest) = Some (answer, rest)
    /\ answer <> ""
    /\ (strip line = "" -> answer = default)
    /\ (strip line <> "" -> answer = strip line).
Proof.
  intros H. rewrite (get_input_default required default line rest H).
  eexists. split; [reflexivity|].
  destruct (is_empty (strip line)) eqn:E.
  - apply is_empty_true in E. repeat split; congruence.
  - apply is_empty_false in E. repeat split; congruence.
Qed.

(** X21: a number returned by [get_int_input] is what [int] reads from
    one of the stripped lines and lies within the bounds given. *)
Theorem get_int_input_respects_bounds (min_val max_val : option Z)
    (stdin rest : list string) (value : Z) :
  get_int_input min_val max_val stdin = Some (Some value, rest) ->
  (forall m, min_val = Some m -> m <= value)
  /\ (forall m, max_val = Some m -> value <= m)
  /\ exists line, In line stdin /\ int_of_str (strip line) = Some value.
Proof.
  induction stdin as [|line r IH]; simpl; [discriminate|].
  assert (Hrec : get_int_input min_val max_val r = Some (Some value, rest) ->
                 (forall m, min_val = Some m -> m <= value)
                 /\ (forall m, max_val = Some m -> value <= m)
                 /\ exists l, (line = l \/ In l r)
                              /\ int_of_str (strip l) = Some value).
  { intros H. destruct (IH H) as (? & ? & l & ? & ?).
    repeat split; try assumption. exists l. auto. }
  destruct (is_empty (strip line)); [discriminate|].
  destruct (int_of_str (strip line)) as [v|] eqn:Ev; [|exact Hrec].
  destruct min_val as [lo|], max_val as [hi|].
  - destruct (Z.ltb_spec v lo); [exact Hrec|].
    destruct (Z.ltb_spec hi v); [exact Hrec|].
    intros [= <- <-]. repeat split.
    + now intros m [= <-].
    + now intros m [= <-].
    + exists line. auto.
  - destruct (Z.ltb_spec v lo); [exact Hrec|].
    intros [= <- <-]. repeat split.
    + now intros m [= <-].
    + discriminate.
    + exists line. auto.
  - destruct (Z.ltb_spec hi v); [exact Hrec|].
    intros [= <- <-]. repeat split.
    + discriminate.
    + now intros m [= <-].
    + exists line. auto.
  - intros [= <- <-]. repeat split; try discriminate. exists line. auto.
Qed.

Lemma get_choice_in_range (options : list string) (allow_cancel : bool)
    (stdin rest : list string) (answer : option Z) :
  get_choice options allow_cancel stdin = Some (answer, rest) ->
  match answer with
  | Some i => 0 <= i < len options
  | None => allow_cancel = true
  end.
Proof.
  induction stdin as [|line r IH]; simpl; [discriminate|].
  destruct (int_of_str line) as [choice|]; [|exact IH].
  destruct allow_cancel; simpl.
  - destruct (Z.eqb_spec choice 0); [now intros [= <- <-]|].
    destruct (Z.leb_spec 1 choice); simpl; [|exact IH].
    destruct (Z.leb_spec choice (len options)); [|exact IH].
    intros [= <- <-]. lia.
  - destruct (Z.leb_spec 1 choice); simpl; [|exact IH].
    destruct (Z.leb_spec choice (len options)); [|exact IH].
    intros [= <- <-]. lia.
Qed.

Lemma py_index_three {A : Type} (a b c : A) (i : Z) :
  0 <= i < 3 ->
  py_index [a; b; c] i
  = Some (if i =? 0 then a else if i =? 1 then b else c).
Proof.
  intros H. assert (E : i = 0 \/ i = 1 \/ i = 2) by lia.
  destruct E as [->|[->| ->]]; reflexivity.
Qed.

(** X22: an index returned by [get_choice] is within the options, and a
    cancel is returned only when allowed; so the list lookups of
    [get_priority] and [get_status] never fail: these raise only when
    [get_choice] does, and return the member at the chosen place. *)
Theorem get_choice_index_is_valid (options : list string)
    (allow_cancel : bool) (stdin : list string) :
  (forall answer rest,
     get_choice options allow_cancel stdin = Some (answer, rest) ->
     match answer with
     | Some i => 0 <= i < len options
     | None => allow_cancel = true
     end)
  /\ get_priority stdin
     = match get_choice ["Low"; "Medium"; "High"] true stdin with
       | None => None
       | Some (None, rest) => Some (None, rest)
       | Some (Some i, rest) =>
           Some (Some (if i =? 0 then LOW
                       else if i =? 1 then MEDIUM else HIGH), rest)
       end
  /\ get_status stdin
     = match get_choice ["Pending"; "In Progress"; "Completed"] true stdin
       with
       | None => None
       | Some (None, rest) => Some (None, rest)
       | Some (Some i, rest) =>
           Some (Some (if i =? 0 then PENDING
                       else if i =? 1 then IN_PROGRESS else COMPLETED),
                 rest)
       end.
Proof.
  split; [intros answer rest; apply get_choice_in_range|].
  split.
  - unfold get_priority.
    destruct (get_choice ["Low"; "Medium"; "High"] true stdin)
      as [[[i|] rest]|] eqn:E; try reflexivity.
    apply get_choice_in_range in E.
    now rewrite py_index_three by exact E.
  - unfold get_status.
    destruct (get_choice ["Pending"; "In Progress"; "Completed"] true stdin)
      as [[[i|] rest]|] eqn:E; try reflexivity.
    apply get_choice_in_range in E.
    now rewrite py_index_three by exact E.
Qed.

Lemma get_input_optional_empty (default : string) (stdin rest : list string) :
  get_input false default stdin = Some ("", rest) -> default = "".
Proof.
  destruct stdin as [|line r]; [discriminate|].
  destruct (String.eqb_spec default "") as [->|Hne]; [reflexivity|].
  rewrite (get_input_default false default line r Hne).
  destruct (is_empty (strip line)) eqn:E.
  - intros [= -> _]. contradiction.
  - intros [= H _]. apply is_empty_false in E. contradiction.
Qed.


Lemma ask_update_title (task : Task) (stdin rest : list string)
    (a : UpdateArgs) :
  ask_update task stdin = Some (a, rest) ->
  arg_title a <> Some "" /\ arg_description a <> Some "".
Proof.
  unfold ask_update.
  destruct (get_input false (title task) stdin) as [[new_title s1]|] eqn:E1;
    [|discriminate].
  destruct (get_input false (description task) s1) as [[new_description s2]|]
    eqn:E2; [|discriminate].
  destruct (ask_choice get_priority s2) as [[new_priority s3]|];
    [|discriminate].
  destruct (ask_choice get_status s3) as [[new_status s4]|]; [|discriminate].
  destruct (confirm false s4) as [[change s5]|]; [|discriminate].
  destruct (if change then get_due_date true s5
            else Some ((None, false), s5)) as [[[due clear] s6]|];
    [|discriminate].
  intros [= <- _]. cbn [arg_title arg_description]. split.
  - destruct (String.eqb_spec new_title (title task)) as [E|Hne];
      [discriminate|].
    intros [= ->]. apply get_input_optional_empty in E1. congruence.
  - destruct (String.eqb_spec new_description (description task)) as [E|Hne];
      [discriminate|].
    intros [= ->]. apply get_input_optional_empty in E2. congruence.
Qed.

(** X24: [update_task()] of main.py never passes the empty string to
    the store, neither as title nor as description; so whenever it
    returns, every task that had a title that is not empty still has
    one. *)
Theorem cli_update_task_never_empties_a_title (now : datetime)
    (w w' : World) (stdin rest : list string) :
  cli_update_task now w stdin = Some (w', rest) ->
  (forall task s s' a,
     ask_update task s = Some (a, s') ->
     arg_title a <> Some "" /\ arg_description a <> Some "")
  /\ forall i task,
       get_task i (store w) = Some task -> title task <> "" ->
       exists task',
         get_task i (store w') = Some task' /\ title task' <> "".
Proof.
  intros H. split; [intros task s s' a; apply ask_update_title|].
  intros i task Hget Hne. unfold cli_update_task in H.
  destruct (get_int_input None None stdin) as [[[task_id|] s1]|];
    [| |discriminate].
  2: { injection H as <- _. now exists task. }
  destruct (get_task task_id (store w)) as [found|] eqn:Ef.
  2: { injection H as <- _. now exists task. }
  destruct (ask_update found s1) as [[a s2]|] eqn:Ea; [|discriminate].
  injection H as <- _. apply ask_update_title in Ea. destruct Ea as [Ea _].
  unfold get_task in *. unfold update_task. rewrite Ef.
  cbn [snd store _save_to_file _tasks].
  destruct (Z.eq_dec i task_id) as [->|Hi].
  - rewrite dict_get_set_same. eexists. split; [reflexivity|].
    rewrite Ef in Hget. injection Hget as ->.
    destruct task. cbn. cbn in Hne.
    destruct (arg_title a) as [x|]; [congruence | exact Hne].
  - rewrite dict_get_set_other by exact Hi. now exists task.
Qed.


Lemma get_due_date_answer (allow_clear : bool) (stdin rest : list string)
    (due : option datetime) (clear : bool) :
  get_due_date allow_clear stdin = Some ((due, clear), rest) ->
  (clear = true -> allow_clear = true /\ due = None)
  /\ (forall d, due = Some d ->
        exists line, In line stdin /\ strptime_ymd (strip line) = Some d).
Proof.
  induction stdin as [|line r IH]; simpl; [discriminate|].
  destruct (is_empty (strip line)).
  { intros [= <- <- _]. split; discriminate. }
  destruct allow_clear; simpl.
  - destruct (String.eqb (lower (strip line)) "clear").
    { intros [= <- <- _]. split; [now split | discriminate]. }
    destruct (strptime_ymd (strip line)) as [d|] eqn:E.
    + intros [= <- <- _]. split; [discriminate|].
      intros d' [= <-]. exists line. auto.
    + intros H. destruct (IH H) as [Hc Hd]. split; [exact Hc|].
      intros d Ed. destruct (Hd d Ed) as (l & ? & ?). exists l. auto.
  - destruct (strptime_ymd (strip line)) as [d|] eqn:E.
    + intros [= <- <- _]. split; [discriminate|].
      intros d' [= <-]. exists line. auto.
    + intros H. destruct (IH H) as [Hc Hd]. split; [exact Hc|].
      intros d Ed. destruct (Hd d Ed) as (l & ? & ?). exists l. auto.
Qed.

(** X26: [get_due_date] never returns a date together with the clear
    flag, returns the flag only when clearing is allowed, and a date
    it returns is what [strptime] reads from one of the stripped
    lines; so [update_task()] of main.py never passes both a due date
    and the clear flag to the store. *)
Theorem get_due_date_is_date_or_clear (allow_clear : bool)
    (stdin rest : list string) (due : option datetime) (clear : bool) :
  get_due_date allow_clear stdin = Some ((due, clear), rest) ->
  (clear = true -> allow_clear = true /\ due = None)
  /\ (forall d, due = Some d ->
        exists line, In line stdin /\ strptime_ymd (strip line) = Some d)
  /\ (forall task s s' a,
        ask_update task s = Some (a, s') ->
        arg_clear_due_date a = true -> arg_due_date a = None).
Proof.
  intros H. destruct (get_due_date_answer _ _ _ _ _ H) as [Hc Hd].
  split; [exact Hc|]. split; [exact Hd|].
  intros task s s' a. unfold ask_update.
  destruct (get_input false (title task) s) as [[new_title s1]|];
    [|discriminate].
  destruct (get_input false (description task) s1) as [[new_description s2]|];
    [|discriminate].
  destruct (ask_choice get_priority s2) as [[new_priority s3]|];
    [|discriminate].
  destruct (ask_choice get_status s3) as [[new_status s4]|]; [|discriminate].
  destruct (confirm false s4) as [[[|] s5]|]; [| |discriminate].
  - destruct (get_due_date true s5) as [[[due' clear'] s6]|] eqn:E;
      [|discriminate].
    intros [= <- _]. cbn [arg_clear_due_date arg_due_date]. intros ->.
    now apply (get_due_date_answer _ _ _ _ _ E).
  - intros [= <- _]. discriminate.
Qed.


End ConsoleFacts.

(** ** Runs on concrete stores *)

#[local] Existing Instance NaiveDateTime.
#[local] Existing Instance DefaultDecoder.

(** Restarting after [Sample.session]: the file left by the last call
    gives back the store, with tasks 1 and 3 in this order and the
    counter at 4. *)
Example restart_after_session :
  __init__ (disk (run Sample.session Sample.new_world))
  = Constructed (store (run Sample.session Sample.new_world))
  /\ dict_keys (_tasks (store (run Sample.session Sample.new_world))) = [1; 3]
  /\ _next_id (store (run Sample.session Sample.new_world)) = 4.
Proof. repeat split; reflexivity. Qed.

(** Of the four tasks of [Sample.deadlines], only the pending one due
    yesterday is overdue. *)
Example overdue_of_deadlines :
  get_overdue_tasks Sample.today (store (run Sample.deadlines Sample.new_world))
  = [Sample.report].
Proof. reflexivity. Qed.

(** C1 fails on the code: [add_task] with the empty title on a new
    store raises nothing; it returns a task with the empty title, stores
    it under id 1, moves the counter from 1 to 2 and writes the file. *)
Lemma empty_title_is_created :
  title (fst (add_task "" "" MEDIUM None None Sample.a_moment Sample.a_moment
                Sample.new_world)) = ""
  /\ get_task 1 (store (snd (add_task "" "" MEDIUM None None Sample.a_moment
                               Sample.a_moment Sample.new_world)))
     = Some (fst (add_task "" "" MEDIUM None None Sample.a_moment
                    Sample.a_moment Sample.new_world))
  /\ _next_id (store Sample.new_world) = 1
  /\ _next_id (store (snd (add_task "" "" MEDIUM None None Sample.a_moment
                             Sample.a_moment Sample.new_world))) = 2
  /\ disk Sample.new_world = Absent
  /\ disk (snd (add_task "" "" MEDIUM None None Sample.a_moment
                  Sample.a_moment Sample.new_world))
     = Document (JObj [("next_id", JInt 2);
                       ("tasks", JArr [JObj
                          [("id", JInt 1); ("title", JStr "");
                           ("description", JStr "");
                           ("priority", JStr "medium");
                           ("status", JStr "pending"); ("due_date", JNull);
                           ("created_at", JStr "2024-02-29T23:59:58.120034");
                           ("updated_at", JStr "2024-02-29T23:59:58.120034");
                           ("tags", JArr [])]])]).
Proof. repeat split; reflexivity. Qed.

(** C2 on the store left by [Sample.session]. *)
Lemma save_then_load_is_identity_witness :
  DateTimeLaws NaiveDateTime
  /\ reachable (run Sample.session Sample.new_world)
  /\ __init__ (disk (_save_to_file
                       (store (run Sample.session Sample.new_world))))
     = Constructed (store (run Sample.session Sample.new_world)).
Proof.
  assert (R : reachable (run Sample.session Sample.new_world)).
  { apply reachable_run. apply (reachable_init Absent fresh). reflexivity. }
  split; [exact NaiveDateTime_laws|].
  split; [exact R|].
  exact (save_then_load_is_identity NaiveDateTime_laws _ R).
Defined.

(** C3 on [Sample.long_session], from the new store: the four creates
    get 1, 2, 3, 4 though task 2 is deleted and the store cleared in
    between, and the counter ends at 5. *)
Lemma ids_increase_by_one_and_are_never_reused_witness :
  ids_below_counter (store Sample.new_world)
  /\ created_ids Sample.long_session Sample.new_world = [1; 2; 3; 4]
  /\ _next_id (store (run Sample.long_session Sample.new_world)) = 5
  /\ ids_below_counter (store (run Sample.long_session Sample.new_world)).
Proof.
  assert (H : ids_below_counter (store Sample.new_world)) by (intros k []).
  split; [exact H|].
  destruct (ids_increase_by_one_and_are_never_reused
              Sample.new_world Sample.long_session)
    as (E & _ & N & _ & _ & _ & I).
  rewrite E, N. repeat split. exact (proj1 (I H)).
Defined.


(** The members read with [.get] are optional: a document without
    ["tasks"] gives the empty collection and keeps its counter, and a
    record without ["description"], ["due_date"] and ["tags"] is
    loaded with the defaults. *)
Example optional_members_default :
  __init__ (Document (JObj [("next_id", JInt 7)]))
  = Constructed {| _tasks := []; _next_id := 7 |}
  /\ __init__
       (Sample.document
          [JObj [("id", JInt 1); ("title", JStr "Write report");
                 ("priority", JStr "high"); ("status", JStr "pending");
                 ("created_at", Sample.stamp);
                 ("updated_at", Sample.stamp)]])
     = Constructed {| _tasks := [(1, Sample.report_no_due)]; _next_id := 2 |}.
Proof. split; reflexivity. Qed.

(** [AttributeError] and [TypeError] are not named by the [except]
    clause: a record that is not an object, a date that is not a string
    and an id that cannot be a key leave [__init__] with the exception. *)
Example type_errors_leave_init :
  __init__ (Sample.document [JInt 5]) = Uncaught AttributeError
  /\ __init__
       (Sample.document
          [JObj (Sample.members (JStr "high") JNull (JInt 20240229))])
     = Uncaught TypeError
  /\ __init__
       (Sample.document
          [JObj [("id", JArr []); ("title", JStr "Write report");
                 ("priority", JStr "high"); ("status", JStr "pending");
                 ("created_at", Sample.stamp);
                 ("updated_at", Sample.stamp)]])
     = Uncaught TypeError.
Proof. repeat split; reflexivity. Qed.


(** C5 on the store holding [Sample.report]. *)
Lemma update_status_only_frame_witness :
  get_task 1 (store Sample.one_task) = Some Sample.report
  /\ fst (update_task 1 None None None (Some COMPLETED) None false None
            Sample.this_morning Sample.one_task)
     = Some {| id := 1; title := "Write report"; description := "";
               priority := HIGH; status := COMPLETED;
               due_date := Some Sample.yesterday;
               created_at := Sample.a_moment;
               updated_at := Sample.this_morning; tags := [] |}.
Proof.
  split; [reflexivity|].
  exact (proj1 (update_status_only_frame Sample.one_task 1 COMPLETED
                  Sample.this_morning Sample.report eq_refl)).
Defined.

(** C6 on the store holding [Sample.report], whose due date is set. *)
Lemma clear_due_date_takes_precedence_witness :
  get_task 1 (store Sample.one_task) = Some Sample.report
  /\ exists task',
       fst (update_task 1 None None None None (Some Sample.tomorrow) true
              None Sample.this_morning Sample.one_task) = Some task'
       /\ get_task 1
            (store (snd (update_task 1 None None None None
                           (Some Sample.tomorrow) true None
                           Sample.this_morning Sample.one_task)))
          = Some task'
       /\ due_date task' = None.
Proof.
  split; [reflexivity|].
  exact (clear_due_date_takes_precedence Sample.one_task 1 None None None
           None Sample.tomorrow None Sample.this_morning Sample.report
           eq_refl).
Defined.

(** C8 on the store holding only task 1, for the id 7. *)
Lemma absent_id_is_signalled_witness :
  ~ In 7 (dict_keys (_tasks (store Sample.one_task)))
  /\ get_task 7 (store Sample.one_task) = None
  /\ delete_task 7 Sample.one_task = (false, Sample.one_task)
  /\ delete_task 7 (snd (delete_task 7 Sample.one_task))
     = (false, Sample.one_task).
Proof.
  assert (H : ~ In 7 (dict_keys (_tasks (store Sample.one_task)))).
  { simpl. intros [E|[]]. discriminate. }
  split; [exact H|].
  destruct (absent_id_is_signalled Sample.one_task 7 H)
    as (G & _ & _ & D1 & D2).
  repeat split; assumption.
Defined.

(** C9 fails on the code: [update_task] with the empty title on the
    store holding [Sample.report] leaves task 1 with the empty title. *)
Lemma empty_title_erases_title :
  get_task 1 (store Sample.one_task) = Some Sample.report
  /\ title Sample.report = "Write report"
  /\ option_map title
       (get_task 1
          (store (snd (update_task 1 (Some "") None None None None false
                         None Sample.this_morning Sample.one_task))))
     = Some "".
Proof. repeat split; reflexivity. Qed.

(** C9 as amended, on the same store. *)
Lemma update_title_overwrites_witness :
  get_task 1 (store Sample.one_task) = Some Sample.report
  /\ exists task',
       fst (update_task 1 (Some "") None None None None false None
              Sample.this_morning Sample.one_task) = Some task'
       /\ get_task 1
            (store (snd (update_task 1 (Some "") None None None None false
                           None Sample.this_morning Sample.one_task)))
          = Some task'
       /\ title task' = "".
Proof.
  split; [reflexivity|].
  exact (update_title_overwrites Sample.one_task 1 "" Sample.this_morning
           Sample.report eq_refl).
Defined.

(** C10 on the store holding [Sample.report], constructed from its
    file: the task comes back with the new [updated_at], the file holds
    the counter and the record of the task with that [updated_at], and
    a store constructed from the file is the store in memory. *)
Lemma update_without_fields_refreshes_witness :
  get_task 1 (store Sample.one_task) = Some Sample.report
  /\ updated_at Sample.report = Sample.a_moment
  /\ fst (update_task 1 None None None None None false None
            Sample.this_morning Sample.one_task)
     = Some {| id := 1; title := "Write report"; description := "";
               priority := HIGH; status := PENDING;
               due_date := Some Sample.yesterday;
               created_at := Sample.a_moment;
               updated_at := Sample.this_morning; tags := [] |}
  /\ disk (snd (update_task 1 None None None None None false None
                  Sample.this_morning Sample.one_task))
     = Document
         (JObj [ ("next_id", JInt 2);
                 ("tasks",
                  JArr [ JObj [ ("id", JInt 1);
                                ("title", JStr "Write report");
                                ("description", JStr "");
                                ("priority", JStr "high");
                                ("status", JStr "pending");
                                ("due_date", JStr "2024-03-14T09:30:00");
                                ("created_at",
                                 JStr "2024-02-29T23:59:58.120034");
                                ("updated_at", JStr "2024-03-15T09:30:00");
                                ("tags", JArr []) ] ]) ])
  /\ __init__ (disk (snd (update_task 1 None None None None None false None
                            Sample.this_morning Sample.one_task)))
     = Constructed
         {| _tasks := [(1, {| id := 1; title := "Write report";
                              description := ""; priority := HIGH;
                              status := PENDING;
                              due_date := Some Sample.yesterday;
                              created_at := Sample.a_moment;
                              updated_at := Sample.this_morning;
                              tags := [] |})];
            _next_id := 2 |}.
Proof.
  assert (R : reachable Sample.one_task).
  { apply (reachable_init (disk Sample.one_task) (store Sample.one_task)).
    reflexivity. }
  destruct (update_without_fields_refreshes Sample.one_task 1
              Sample.this_morning Sample.report eq_refl)
    as (F & _ & (before & after & B & _ & D) & I).
  split; [reflexivity|]. split; [reflexivity|].
  split; [exact F|].
  destruct before as [|t before].
  - change ([Sample.report] = Sample.report :: after) in B.
    injection B as <-. split; [exact D|].
    exact (I NaiveDateTime_laws R).
  - change ([Sample.report] = t :: before ++ Sample.report :: after) in B.
    injection B as _ B. now destruct before.
Defined.

(** ** Runs of the queries, the invariants and the console *)

#[local] Existing Instance AsciiStr.
#[local] Existing Instance GregorianDelta.
#[local] Existing Instance NaiveStrpTime.

Lemma one_task_well_keyed : well_keyed (_tasks (store Sample.one_task)).
Proof.
  split; [|repeat constructor].
  constructor; [intros [] | constructor].
Qed.

(** The statistics of [Scene.desk], and what the week and a search
    list there. *)
Example desk_queries :
  get_stats Sample.today (store Scene.desk)
  = {| total := 4; overdue := 1;
       by_status := {| pending := 3; in_progress := 0; completed := 1 |};
       by_priority := {| high := 1; medium := 1; low := 2 |} |}
  /\ get_tasks_due_this_week Sample.today (store Scene.desk)
     = Some [Scene.plan]
  /\ map id (search_tasks "REPORT" (store Scene.desk)) = [1]
  /\ map id (get_tasks_by_status PENDING (store Scene.desk)) = [1; 3; 4].
Proof. repeat split; reflexivity. Qed.

(** X4 on [Scene.desk]. *)
Lemma search_empty_query_returns_all_witness :
  lower "" = ""
  /\ search_tasks "" (store Scene.desk) = get_all_tasks (store Scene.desk).
Proof.
  split; [reflexivity|].
  exact (search_empty_query_returns_all (store Scene.desk) eq_refl).
Defined.

(** X6 on [Scene.desk], for the task due tomorrow. *)
Lemma due_this_week_is_not_overdue_witness :
  get_tasks_due_this_week Sample.today (store Scene.desk)
  = Some [Scene.plan]
  /\ In Scene.plan [Scene.plan]
  /\ In Scene.plan (get_all_tasks (store Scene.desk))
  /\ due_date Scene.plan <> None
  /\ status Scene.plan <> COMPLETED
  /\ ~ In Scene.plan (get_overdue_tasks Sample.today (store Scene.desk)).
Proof.
  split; [reflexivity|]. split; [now left|].
  exact (due_this_week_is_not_overdue Sample.today (store Scene.desk)
           [Scene.plan] Scene.plan eq_refl (or_introl eq_refl)).
Defined.

(** X7 on [Scene.desk]: the report, overdue today, is overdue a week
    later. *)
Lemma overdue_stays_overdue_witness :
  date_leb Sample.today Scene.next_week = true
  /\ In Sample.report (get_overdue_tasks Sample.today (store Scene.desk))
  /\ In Sample.report
       (get_overdue_tasks Scene.next_week (store Scene.desk)).
Proof.
  split; [reflexivity|]. split; [now left|].
  exact (overdue_stays_overdue Sample.today Scene.next_week
           (store Scene.desk) Sample.report eq_refl (or_introl eq_refl)).
Defined.

(** X8 on the store holding [Sample.report], which is overdue. *)
Lemma completed_task_leaves_the_deadline_lists_witness :
  well_keyed (_tasks (store Sample.one_task))
  /\ get_task 1 (store Sample.one_task) = Some Sample.report
  /\ In Sample.report
       (get_overdue_tasks Sample.today (store Sample.one_task))
  /\ forall t,
       In t (get_overdue_tasks Sample.today
               (store (snd (mark_completed 1 Sample.this_morning
                              Sample.one_task)))) ->
       id t <> 1.
Proof.
  split; [exact one_task_well_keyed|]. split; [reflexivity|].
  split; [now left|].
  exact (proj1 (proj2 (completed_task_leaves_the_deadline_lists
                         Sample.one_task 1 Sample.this_morning Sample.today
                         Sample.report one_task_well_keyed eq_refl))).
Defined.

(** X9 after [Sample.session]. *)
Lemma restart_restores_the_store_witness :
  DateTimeLaws NaiveDateTime
  /\ reachable (run Sample.session Sample.new_world)
  /\ __init__ (disk (run Sample.session Sample.new_world))
     = Constructed (store (run Sample.session Sample.new_world)).
Proof.
  assert (R : reachable (run Sample.session Sample.new_world)).
  { apply reachable_run. apply (reachable_init Absent fresh). reflexivity. }
  split; [exact NaiveDateTime_laws|]. split; [exact R|].
  exact (restart_restores_the_store NaiveDateTime_laws _ R).
Defined.

(** X11 on the store holding [Sample.report]. *)
Lemma add_task_appends_witness :
  ids_below_counter (store Sample.one_task)
  /\ map title (get_all_tasks (store Scene.after_add))
     = ["Write report"; "Buy milk"]
  /\ count (store Scene.after_add) = 2.
Proof.
  assert (H : ids_below_counter (store Sample.one_task)).
  { intros k [<-|[]]. reflexivity. }
  split; [exact H|].
  destruct (add_task_appends Sample.one_task "Buy milk" "" HIGH
              (Some ["home"; "shop"]) (Some Scene.milk_day)
              Sample.this_morning Sample.this_morning H) as (E & C & _).
  unfold Scene.after_add. rewrite E, C. split; reflexivity.
Defined.

(** X12 on a store whose counter is 1 while task 1 exists: the report
    is replaced. *)
Lemma add_task_replaces_on_id_collision_witness :
  get_task (_next_id (store Scene.stale_counter)) (store Scene.stale_counter)
  = Some Sample.report
  /\ count (store (snd (add_task "Buy milk" "" LOW None None
                          Sample.this_morning Sample.this_morning
                          Scene.stale_counter))) = 1
  /\ option_map title
       (get_task 1 (store (snd (add_task "Buy milk" "" LOW None None
                                  Sample.this_morning Sample.this_morning
                                  Scene.stale_counter))))
     = Some "Buy milk".
Proof.
  split; [reflexivity|].
  destruct (add_task_replaces_on_id_collision Scene.stale_counter
              "Buy milk" "" LOW None None Sample.this_morning
              Sample.this_morning Sample.report eq_refl) as (_ & C & G & _).
  split; [exact C|]. change 1 with (_next_id (store Scene.stale_counter)) at 1.
  now rewrite G.
Defined.

(** X13 after [Sample.session] on the new store. *)
Lemma listing_is_by_ascending_id_witness :
  in_creation_order (store Sample.new_world)
  /\ map id (get_all_tasks (store (run Sample.session Sample.new_world)))
     = [1; 3]
  /\ StronglySorted Z.lt
       (map id (get_all_tasks (store (run Sample.session Sample.new_world)))).
Proof.
  assert (H : in_creation_order (store Sample.new_world)).
  { split; [constructor|]. split; [intros k [] | constructor]. }
  split; [exact H|]. split; [reflexivity|].
  exact (proj2 (listing_is_by_ascending_id Sample.new_world Sample.session H)).
Defined.


(** X15 on the store holding [Sample.report], with every field given. *)
Lemma update_task_keeps_identity_witness :
  get_task 1 (store Sample.one_task) = Some Sample.report
  /\ exists task',
       fst (update_task 1 (Some "Report") (Some "final") (Some LOW)
              (Some IN_PROGRESS) (Some Sample.tomorrow) false
              (Some ["work"]) Sample.this_morning Sample.one_task)
       = Some task'
       /\ id task' = 1
       /\ created_at task' = Sample.a_moment
       /\ updated_at task' = Sample.this_morning.
Proof.
  split; [reflexivity|].
  destruct (update_task_keeps_identity Sample.one_task 1 (Some "Report")
              (Some "final") (Some LOW) (Some IN_PROGRESS)
              (Some Sample.tomorrow) false (Some ["work"])
              Sample.this_morning Sample.report eq_refl)
    as (task' & R & _ & I & C & U & _).
  exists task'. repeat split; assumption.
Defined.

(** X16 after [Sample.session]. *)
Lemma stored_ids_are_unique_witness :
  reachable (run Sample.session Sample.new_world)
  /\ NoDup (map id (get_all_tasks
                      (store (run Sample.session Sample.new_world)))).
Proof.
  assert (R : reachable (run Sample.session Sample.new_world)).
  { apply reachable_run. apply (reachable_init Absent fresh). reflexivity. }
  split; [exact R|]. exact (proj1 (stored_ids_are_unique _ R)).
Defined.

(** X18 on a file with two records for the id 1: the second is kept. *)
Lemma load_keeps_the_last_record_of_an_id_witness :
  DateTimeLaws NaiveDateTime
  /\ exists self,
       __init__ (Document
                   (JObj [("next_id", JInt 2);
                          ("tasks",
                           JArr (map task_record
                                   [Sample.report; Scene.report_done]))]))
       = Constructed self
       /\ get_task 1 self = Some Scene.report_done.
Proof.
  split; [exact NaiveDateTime_laws|].
  destruct (load_keeps_the_last_record_of_an_id NaiveDateTime_laws 2
              [Sample.report; Scene.report_done])
    as (self & I & _ & _ & G).
  exists self. split; [exact I|]. now rewrite G.
Defined.

(** X20 with the title of [Sample.report] as default. *)
Lemma get_input_falls_back_on_default_witness :
  "Write report" <> ""
  /\ get_input false "Write report" ["  "; "next"]
     = Some ("Write report", ["next"])
  /\ get_input true "Write report" [" Draft "; "next"]
     = Some ("Draft", ["next"]).
Proof.
  split; [discriminate|].
  destruct (get_input_falls_back_on_default false "Write report" "  "
              ["next"] ltac:(discriminate)) as (a & E & _ & D & _).
  destruct (get_input_falls_back_on_default true "Write report" " Draft "
              ["next"] ltac:(discriminate)) as (b & E' & _ & _ & D').
  rewrite E, E', (D eq_refl), (D' ltac:(discriminate)). split; reflexivity.
Defined.

(** X21 with the bounds 1 and 5: 9 and a word are refused, 3 is
    returned. *)
Lemma get_int_input_respects_bounds_witness :
  get_int_input (Some 1) (Some 5) ["9"; "three"; " 3 "; "next"]
  = Some (Some 3, ["next"])
  /\ (forall m, Some 1 = Some m -> m <= 3)
  /\ (forall m, Some 5 = Some m -> 3 <= m).
Proof.
  assert (E : get_int_input (Some 1) (Some 5)
                ["9"; "three"; " 3 "; "next"] = Some (Some 3, ["next"]))
    by reflexivity.
  split; [exact E|].
  destruct (get_int_input_respects_bounds (Some 1) (Some 5)
              ["9"; "three"; " 3 "; "next"] ["next"] 3 E)
    as (L & U & _).
  split; assumption.
Defined.


(** X24 on [Scene.update_answers]: the blank title keeps the title. *)
Lemma cli_update_task_never_empties_a_title_witness :
  cli_update_task Sample.this_morning Sample.one_task Scene.update_answers
  = Some (Scene.after_update, [])
  /\ get_task 1 (store Sample.one_task) = Some Sample.report
  /\ title Sample.report <> ""
  /\ exists task',
       get_task 1 (store Scene.after_update) = Some task'
       /\ title task' <> "".
Proof.
  assert (E : cli_update_task Sample.this_morning Sample.one_task
                Scene.update_answers = Some (Scene.after_update, []))
    by reflexivity.
  split; [exact E|]. split; [reflexivity|].
  split; [discriminate|].
  exact (proj2 (cli_update_task_never_empties_a_title (DT := NaiveDateTime)
                  Sample.this_morning Sample.one_task Scene.after_update
                  Scene.update_answers [] E)
           1 Sample.report eq_refl ltac:(discriminate)).
Defined.


(** X26 on an input of [get_due_date] with a date that does not parse
    first, and on the word that clears. *)
Lemma get_due_date_is_date_or_clear_witness :
  get_due_date true ["soon"; " 2024-03-16 "; "next"]
  = Some ((Some Scene.milk_day, false), ["next"])
  /\ get_due_date true [" Clear "] = Some ((None, true), [])
  /\ (true = true -> true = true /\ @None Naive.t = None).
Proof.
  assert (E : get_due_date true [" Clear "] = Some ((None, true), []))
    by reflexivity.
  split; [reflexivity|]. split; [exact E|].
  exact (proj1 (get_due_date_is_date_or_clear (DT := NaiveDateTime) true
                  [" Clear "] [] None true E)).
Defined.

